(** * NotesHub: tenant isolation, plan limits and backend selection

    A shallow embedding of the server side of the NotesHub repository
    (Express routes, the auth middleware, the zod request schemas and the
    storage layer with its in-memory backend), followed by the properties
    checked against it.

    Conventions of the embedding.
    - A JavaScript string is a [string]; one [ascii] stands for one UTF-16
      code unit in the range 0..255, so [String.length] is [.length] and
      [String.eqb] is [===] on such strings.
    - A [Date] is the number of milliseconds since the epoch, in [Z].
    - [new Date()] and [nanoid()] read the environment: the value they
      return is an explicit argument of the operation that calls them.
    - [async] methods of [MemStorage] contain no [await], so each one runs
      to completion and is a function from the store to a result and a
      new store. *)

From Stdlib Require Import List String Ascii Bool Arith ZArith Lia.
From Equations Require Import Equations.
Import ListNotations.
Local Open Scope string_scope.

(* ===================================================================== *)
(** ** JavaScript strings                                                 *)
(* ===================================================================== *)

Module JsString.

Definition code (c : ascii) : nat := nat_of_ascii c.

Definition in_range (lo hi : nat) (c : ascii) : bool :=
  Nat.leb lo (code c) && Nat.leb (code c) hi.

(** The class [\s] of ECMAScript regular expressions, on code units
    below 256: TAB, LF, VT, FF, CR, SPACE and NO-BREAK SPACE. *)
Definition isWhiteSpace (c : ascii) : bool :=
  in_range 9 13 c || Nat.eqb (code c) 32 || Nat.eqb (code c) 160.

(** The class [a-z0-9]. *)
Definition isLowerAlnum (c : ascii) : bool :=
  in_range 97 122 c || in_range 48 57 c.

(** The negated class [[^a-z0-9\s]] of the first [replace]. *)
Definition notLowerAlnumSpace (c : ascii) : bool :=
  negb (isLowerAlnum c || isWhiteSpace c).

(** [String.prototype.toLowerCase] on one code unit below 256: A-Z and
    the Latin-1 capitals (all of U+00C0..U+00DE but the multiplication
    sign U+00D7) move up by 32. *)
Definition toLowerCase_unit (c : ascii) : ascii :=
  if in_range 65 90 c || in_range 192 214 c || in_range 216 222 c
  then ascii_of_nat (code c + 32)
  else c.

Fixpoint toLowerCase (s : string) : string :=
  match s with
  | EmptyString => EmptyString
  | String c s' => String (toLowerCase_unit c) (toLowerCase s')
  end.

(** [s.replace(/[cls]/g, '')] for a one-character class [cls]: the
    scan tries the class at every position, drops the unit on a match
    and copies it otherwise. *)
Fixpoint replace_class_empty (cls : ascii -> bool) (s : string) : string :=
  match s with
  | EmptyString => EmptyString
  | String c s' =>
      if cls c then replace_class_empty cls s'
      else String c (replace_class_empty cls s')
  end.

(** What a greedy [cls+] leaves after it has matched at the head. *)
Fixpoint skip_class (cls : ascii -> bool) (s : string) : string :=
  match s with
  | EmptyString => EmptyString
  | String c s' => if cls c then skip_class cls s' else s
  end.

(** [s.replace(/[cls]+/g, r)]: at a position where the class matches,
    the greedy [+] consumes the whole run, [r] is emitted once and the
    scan resumes after the run; elsewhere the unit is copied. *)
Equations? replace_class_plus (cls : ascii -> bool) (r : string) (s : string)
  : string by wf (String.length s) lt :=
  replace_class_plus cls r EmptyString := EmptyString;
  replace_class_plus cls r (String c s') with cls c => {
    | true := r ++ replace_class_plus cls r (skip_class cls s');
    | false := String c (replace_class_plus cls r s') }.
Proof.
  clear replace_class_plus.
  assert (Hskip : forall t, String.length (skip_class cls t) <= String.length t).
  { induction t as [|d t IH]; simpl; [lia|]. destruct (cls d); simpl; lia. }
  specialize (Hskip s'). lia.
Qed.

(** [s.substring(0, n)]. *)
Definition substring0 (n : nat) (s : string) : string :=
  String.substring 0 n s.

End JsString.

(** The slug of [POST /api/auth/signup]:
    [organizationName.toLowerCase().replace(/[^a-z0-9\s]/g, '')
       .replace(/\s+/g, '-').substring(0, 50)]. *)
Definition slug (organizationName : string) : string :=
  JsString.substring0 50
    (JsString.replace_class_plus JsString.isWhiteSpace "-"
       (JsString.replace_class_empty JsString.notLowerAlnumSpace
          (JsString.toLowerCase organizationName))).


(* ===================================================================== *)
(** ** [Map<string, V>]                                                   *)
(* ===================================================================== *)

(** A JavaScript [Map] keeps its entries in insertion order, and [set] on
    a key already present replaces the value where it stands.  The
    entries are kept as a list of pairs, oldest first. *)
Module JsMap.

Definition t (V : Type) : Type := list (string * V).

Definition empty {V} : t V := [].

Fixpoint get {V} (k : string) (m : t V) : option V :=
  match m with
  | [] => None
  | (k', v) :: m' => if String.eqb k' k then Some v else get k m'
  end.

Definition has {V} (k : string) (m : t V) : bool :=
  match get k m with Some _ => true | None => false end.

Fixpoint set {V} (k : string) (v : V) (m : t V) : t V :=
  match m with
  | [] => [(k, v)]
  | (k', v') :: m' =>
      if String.eqb k' k then (k', v) :: m' else (k', v') :: set k v m'
  end.

(** [delete] answers whether the key was present. *)
Fixpoint delete {V} (k : string) (m : t V) : bool * t V :=
  match m with
  | [] => (false, [])
  | (k', v') :: m' =>
      if String.eqb k' k then (true, m')
      else let '(b, m'') := delete k m' in (b, (k', v') :: m'')
  end.

(** [Array.from(m.values())]. *)
Definition values {V} (m : t V) : list V := map snd m.

End JsMap.

(* ===================================================================== *)
(** ** Data model (shared/schema.ts)                                      *)
(* ===================================================================== *)

Definition Date := Z.

Inductive Plan := free | pro.
Inductive Role := Admin | Member.

Definition Plan_eqb (a b : Plan) : bool :=
  match a, b with free, free | pro, pro => true | _, _ => false end.

Definition Role_eqb (a b : Role) : bool :=
  match a, b with Admin, Admin | Member, Member => true | _, _ => false end.

Module Tenant.
Record t := mk {
  _id : option string;
  name : string;
  slug : string;
  plan : Plan;
  createdAt : option Date;
  updatedAt : option Date }.
End Tenant.

Module InsertTenant.
Record t := mk { name : string; slug : string; plan : Plan }.
End InsertTenant.

Module User.
Record t := mk {
  _id : option string;
  email : string;
  passwordHash : string;
  role : Role;
  tenantId : string;
  createdAt : option Date;
  updatedAt : option Date }.
End User.

(** [Omit<InsertUser, 'password'> & { passwordHash: string }]. *)
Module InsertUser.
Record t := mk {
  email : string; passwordHash : string; role : Role; tenantId : string }.
End InsertUser.

Module Note.
Record t := mk {
  _id : option string;
  title : string;
  body : string;
  tenantId : string;
  authorId : string;
  createdAt : option Date;
  updatedAt : option Date }.
End Note.

(** [InsertNote & { tenantId: string; authorId: string }]. *)
Module InsertNote.
Record t := mk {
  title : string; body : string; tenantId : string; authorId : string }.
End InsertNote.

(** [UpdateNote]: both fields optional. *)
Module UpdateNote.
Record t := mk { title : option string; body : option string }.
End UpdateNote.

(** The [tenant] member of [AuthUser]. *)
Module TenantInfo.
Record t := mk { _id : string; name : string; slug : string; plan : Plan }.
End TenantInfo.

Module AuthUser.
Record t := mk {
  _id : string;
  email : string;
  role : Role;
  tenantId : string;
  tenant : TenantInfo.t }.
End AuthUser.


(* ===================================================================== *)
(** ** [class MemStorage implements IStorage] (storage.ts)                *)
(* ===================================================================== *)

Module MemStorage.

Record t := mk {
  tenants : JsMap.t Tenant.t;
  users : JsMap.t User.t;
  notes : JsMap.t Note.t }.

(** [new MemStorage()]. *)
Definition new : t := mk JsMap.empty JsMap.empty JsMap.empty.

Definition with_tenants (st : t) (m : JsMap.t Tenant.t) : t :=
  mk m (users st) (notes st).
Definition with_users (st : t) (m : JsMap.t User.t) : t :=
  mk (tenants st) m (notes st).
Definition with_notes (st : t) (m : JsMap.t Note.t) : t :=
  mk (tenants st) (users st) m.

(** *** Tenant operations *)

Definition getTenant (st : t) (id : string) : option Tenant.t :=
  JsMap.get id (tenants st).

(** The [for ... of] loop with its early [return]. *)
Fixpoint find_slug (tenantsArray : list Tenant.t) (slug : string)
  : option Tenant.t :=
  match tenantsArray with
  | [] => None
  | tenant :: rest =>
      if String.eqb (Tenant.slug tenant) slug then Some tenant
      else find_slug rest slug
  end.

Definition getTenantBySlug (st : t) (slug : string) : option Tenant.t :=
  find_slug (JsMap.values (tenants st)) slug.

(** [now] is [new Date()], [id] is [nanoid()]. *)
Definition createTenant (now : Date) (id : string)
  (st : t) (tenantData : InsertTenant.t) : Tenant.t * t :=
  let tenant :=
    Tenant.mk (Some id) (InsertTenant.name tenantData)
      (InsertTenant.slug tenantData) (InsertTenant.plan tenantData)
      (Some now) (Some now) in
  (tenant, with_tenants st (JsMap.set id tenant (tenants st))).

Definition updateTenantPlan (now : Date)
  (st : t) (id : string) (plan : Plan) : option Tenant.t * t :=
  match JsMap.get id (tenants st) with
  | None => (None, st)
  | Some tenant =>
      let updatedTenant :=
        Tenant.mk (Tenant._id tenant) (Tenant.name tenant)
          (Tenant.slug tenant) plan (Tenant.createdAt tenant) (Some now) in
      (Some updatedTenant,
       with_tenants st (JsMap.set id updatedTenant (tenants st)))
  end.

(** *** User operations *)

Definition getUser (st : t) (id : string) : option User.t :=
  JsMap.get id (users st).

Fixpoint find_email (usersArray : list User.t) (email : string)
  : option User.t :=
  match usersArray with
  | [] => None
  | user :: rest =>
      if String.eqb (User.email user) email then Some user
      else find_email rest email
  end.

Definition getUserByEmail (st : t) (email : string) : option User.t :=
  find_email (JsMap.values (users st)) email.

Definition createUser (now : Date) (id : string)
  (st : t) (userData : InsertUser.t) : User.t * t :=
  let user :=
    User.mk (Some id) (InsertUser.email userData)
      (InsertUser.passwordHash userData) (InsertUser.role userData)
      (InsertUser.tenantId userData) (Some now) (Some now) in
  (user, with_users st (JsMap.set id user (users st))).

(** *** Note operations *)

(** The loop of [getNotesByTenant]: [notes.push(note)] on a match. *)
Definition getNotesByTenant_loop (tenantId : string)
  (notesArray : list Note.t) (notes : list Note.t) : list Note.t :=
  fold_left
    (fun (notes : list Note.t) note =>
       if String.eqb (Note.tenantId note) tenantId
       then (notes ++ [note])%list else notes)
    notesArray notes.

Definition getNotesByTenant (st : t) (tenantId : string) : list Note.t :=
  getNotesByTenant_loop tenantId (JsMap.values (notes st)) [].

(** [if (!note || note.tenantId !== tenantId) return null]. *)
Definition getNote (st : t) (id tenantId : string) : option Note.t :=
  match JsMap.get id (notes st) with
  | None => None
  | Some note =>
      if negb (String.eqb (Note.tenantId note) tenantId) then None
      else Some note
  end.

Definition createNote (now : Date) (id : string)
  (st : t) (noteData : InsertNote.t) : Note.t * t :=
  let note :=
    Note.mk (Some id) (InsertNote.title noteData) (InsertNote.body noteData)
      (InsertNote.tenantId noteData) (InsertNote.authorId noteData)
      (Some now) (Some now) in
  (note, with_notes st (JsMap.set id note (notes st))).

(** [{ ...note, ...updates, updatedAt: new Date() }]: a field present in
    [updates] wins over the stored one. *)
Definition spread {A} (old : A) (upd : option A) : A :=
  match upd with Some v => v | None => old end.

Definition updateNote (now : Date)
  (st : t) (id tenantId : string) (updates : UpdateNote.t)
  : option Note.t * t :=
  match JsMap.get id (notes st) with
  | None => (None, st)
  | Some note =>
      if negb (String.eqb (Note.tenantId note) tenantId) then (None, st)
      else
        let updatedNote :=
          Note.mk (Note._id note)
            (spread (Note.title note) (UpdateNote.title updates))
            (spread (Note.body note) (UpdateNote.body updates))
            (Note.tenantId note) (Note.authorId note)
            (Note.createdAt note) (Some now) in
        (Some updatedNote,
         with_notes st (JsMap.set id updatedNote (notes st)))
  end.

Definition deleteNote (st : t) (id tenantId : string) : bool * t :=
  match JsMap.get id (notes st) with
  | None => (false, st)
  | Some note =>
      if negb (String.eqb (Note.tenantId note) tenantId) then (false, st)
      else
        let '(b, m) := JsMap.delete id (notes st) in (b, with_notes st m)
  end.

(** The loop of [countNotesByTenant]: [count++] on a match. *)
Definition countNotesByTenant_loop (tenantId : string)
  (notesArray : list Note.t) (count : nat) : nat :=
  fold_left
    (fun count note =>
       if String.eqb (Note.tenantId note) tenantId then S count else count)
    notesArray count.

Definition countNotesByTenant (st : t) (tenantId : string) : nat :=
  countNotesByTenant_loop tenantId (JsMap.values (notes st)) 0.

End MemStorage.

(* ===================================================================== *)
(** ** Backend selection: [initializeStorage] / [getStorage]              *)
(* ===================================================================== *)

Module Storage.

(** [class MongoStorage] has no fields: an instance is a handle on the
    database behind mongoose. *)
Inductive MongoStorage := new_MongoStorage.

(** What a storage access asks of the outside world. *)
Inductive Event :=
| CallConnectDB                          (* [connectDB()] is entered *)
| MongooseConnect (mongoUri : string).   (* [mongoose.connect(mongoUri)] *)

(** The two module variables of storage.ts.  The fallback variable holds
    the [MemStorage] object itself. *)
Record t := mk {
  mongoStorage : option MongoStorage;
  memoryStorageFallback : option MemStorage.t }.

(** Both variables start as [null]. *)
Definition initial : t := mk None None.

(** The [IStorage] handed to the caller. *)
Inductive Backend :=
| Primary (m : MongoStorage)
| Fallback (m : MemStorage.t).

(** [!s] for a string-or-undefined [s]. *)
Definition falsy (s : option string) : bool :=
  match s with
  | None => true
  | Some v => String.eqb v ""
  end.

(** [connectDB] of models/index.ts.  [MONGODB_URI] is the environment
    variable, [reachable] tells whether [mongoose.connect] resolves this
    time.  [false] stands for the rethrown error. *)
Definition connectDB (MONGODB_URI : option string) (reachable : bool)
  : bool * list Event :=
  match MONGODB_URI with
  | None => (false, [CallConnectDB])
  | Some mongoUri =>
      if falsy (Some mongoUri) then (false, [CallConnectDB])
      else (reachable, [CallConnectDB; MongooseConnect mongoUri])
  end.

Definition initializeStorage (MONGODB_URI : option string) (reachable : bool)
  (p : t) : Backend * t * list Event :=
  match mongoStorage p with
  | Some m => (Primary m, p, [])
  | None =>
      let '(connected, evs) := connectDB MONGODB_URI reachable in
      if connected then
        (Primary new_MongoStorage,
         mk (Some new_MongoStorage) (memoryStorageFallback p), evs)
      else
        let mem :=
          match memoryStorageFallback p with
          | None => MemStorage.new
          | Some m => m
          end in
        (Fallback mem, mk (mongoStorage p) (Some mem), evs)
  end.

Definition getStorage := initializeStorage.

(** A run of the process, seen from the storage module: one [getStorage]
    per element of [world], which says whether the database is reachable
    at that access.  The answer of each access is kept with the events it
    caused. *)
Fixpoint run (MONGODB_URI : option string) (world : list bool) (p : t)
  : list (Backend * list Event) * t :=
  match world with
  | [] => ([], p)
  | reachable :: world' =>
      let '(b, p', evs) := getStorage MONGODB_URI reachable p in
      let '(rest, p'') := run MONGODB_URI world' p' in
      ((b, evs) :: rest, p'')
  end.

Definition is_Fallback (b : Backend) : bool :=
  match b with Fallback _ => true | Primary _ => false end.

Definition attempts_connect (evs : list Event) : bool :=
  existsb (fun e => match e with CallConnectDB => true | _ => false end) evs.

End Storage.

(* ===================================================================== *)
(** ** Requests, responses and the request schemas                        *)
(* ===================================================================== *)

(** A value of a parsed JSON body, as far as the schemas look into it. *)
Inductive JsonValue :=
| JNull
| JBool (b : bool)
| JNumber (z : Z)
| JString (s : string)
| JCompound.                (* a nested array or object *)

Definition JsonObject := list (string * JsonValue).

(** [req.body]: [None] when it is not an object. *)
Definition ReqBody := option JsonObject.

Fixpoint field (k : string) (o : JsonObject) : option JsonValue :=
  match o with
  | [] => None
  | (k', v) :: o' => if String.eqb k' k then Some v else field k o'
  end.

(** The body of [AuthResponse.user.tenant] and of the token.  The [!] of
    [user._id!] asserts nothing at run time, so these ids stay optional. *)
Module LoginUser.
Record tenant_t := mk_tenant {
  tenant_id : option string; name : string; slug : string; plan : Plan }.
Record t := mk {
  _id : option string; email : string; role : Role; tenant : tenant_t }.
End LoginUser.

Module JwtClaims.
Record t := mk { sub : option string; role : Role; tenantId : string }.
End JwtClaims.

Inductive ResBody :=
| Message (message : string)
| StatusOk
| JsonNote (note : Note.t)
| JsonNotes (notes : list Note.t)
| JsonAuth (token : string) (user : LoginUser.t)
| JsonUpgrade (message : string) (tenant : Tenant.t).

(** [res.status(n).json(b)]; a bare [res.json(b)] has status 200. *)
Record Response := res { status : nat; json : ResBody }.

Inductive Exception :=
| ZodError
| Error (message : string)
| JsonWebTokenError
| TypeError.

(** What a call into a library gives back: a value or a thrown error. *)
Inductive Outcome (A : Type) :=
| Value (a : A)
| Raise (e : Exception).
Arguments Value {A} a.
Arguments Raise {A} e.

(** How a statement of a handler completes. *)
Inductive Completion (A : Type) :=
| Normal (a : A)           (* on to the next statement *)
| Return (r : Response)    (* a response was sent and the handler left *)
| Throw (e : Exception).   (* on to the enclosing [catch] *)
Arguments Normal {A} a.
Arguments Return {A} r.
Arguments Throw {A} e.

(** *** zod *)

Section Zod.

(** The regular expression behind [z.string().email()]. *)
Variable isEmail : string -> bool.

(** [z.string().min(n)] on a field of the body. *)
Definition z_string_min (n : nat) (v : option JsonValue) : option string :=
  match v with
  | Some (JString s) => if Nat.leb n (String.length s) then Some s else None
  | _ => None
  end.

Definition z_string_email (v : option JsonValue) : option string :=
  match v with
  | Some (JString s) => if isEmail s then Some s else None
  | _ => None
  end.

(** [z.string().min(n).optional()]: absent is fine, present must pass. *)
Definition z_optional_string_min (n : nat) (v : option JsonValue)
  : option (option string) :=
  match v with
  | None => Some None
  | Some _ =>
      match z_string_min n v with
      | Some s => Some (Some s)
      | None => None
      end
  end.

(** [loginSchema.parse]: email and password. *)
Definition loginSchema_parse (body : ReqBody)
  : Outcome (string * string) :=
  match body with
  | None => Raise ZodError
  | Some o =>
      match z_string_email (field "email" o),
            z_string_min 1 (field "password" o) with
      | Some email, Some password => Value (email, password)
      | _, _ => Raise ZodError
      end
  end.

(** [signupSchema.parse]: email, password, organizationName. *)
Definition signupSchema_parse (body : ReqBody)
  : Outcome (string * string * string) :=
  match body with
  | None => Raise ZodError
  | Some o =>
      match z_string_email (field "email" o),
            z_string_min 6 (field "password" o),
            z_string_min 1 (field "organizationName" o) with
      | Some email, Some password, Some organizationName =>
          Value (email, password, organizationName)
      | _, _, _ => Raise ZodError
      end
  end.

(** [insertNoteSchema.parse]: title and body. *)
Definition insertNoteSchema_parse (body : ReqBody)
  : Outcome (string * string) :=
  match body with
  | None => Raise ZodError
  | Some o =>
      match z_string_min 1 (field "title" o),
            z_string_min 1 (field "body" o) with
      | Some title, Some nbody => Value (title, nbody)
      | _, _ => Raise ZodError
      end
  end.

(** [updateNoteSchema = insertNoteSchema.partial()]. *)
Definition updateNoteSchema_parse (body : ReqBody)
  : Outcome UpdateNote.t :=
  match body with
  | None => Raise ZodError
  | Some o =>
      match z_optional_string_min 1 (field "title" o),
            z_optional_string_min 1 (field "body" o) with
      | Some title, Some nbody => Value (UpdateNote.mk title nbody)
      | _, _ => Raise ZodError
      end
  end.

End Zod.

(* ===================================================================== *)
(** ** Handlers over the storage                                          *)
(* ===================================================================== *)

(** The calls a handler makes on the [IStorage] it got from
    [getStorage()], in order. *)
Inductive StorageCall :=
| call_getTenant (id : string)
| call_getTenantBySlug (slug : string)
| call_createTenant (tenant : InsertTenant.t)
| call_updateTenantPlan (id : string) (plan : Plan)
| call_getUserByEmail (email : string)
| call_createUser (user : InsertUser.t)
| call_getNotesByTenant (tenantId : string)
| call_getNote (id tenantId : string)
| call_createNote (note : InsertNote.t)
| call_updateNote (id tenantId : string) (updates : UpdateNote.t)
| call_deleteNote (id tenantId : string)
| call_countNotesByTenant (tenantId : string).

(** What a handler works on: the storage object behind [getStorage()],
    here the in-memory backend, and the record of the calls made on it. *)
Record World := mkWorld {
  storage : MemStorage.t;
  calls : list StorageCall }.

Definition M (A : Type) : Type := World -> Completion A * World.

Definition ret {A} (a : A) : M A := fun w => (Normal a, w).

Definition bind {A B} (c : M A) (k : A -> M B) : M B :=
  fun w =>
    match c w with
    | (Normal a, w') => k a w'
    | (Return r, w') => (Return r, w')
    | (Throw e, w') => (Throw e, w')
    end.

Notation "x <- c ;; k" := (bind c (fun x => k))
  (at level 61, c at next level, right associativity).
Notation "c ;;; k" := (bind c (fun _ => k))
  (at level 61, right associativity).

Definition lift {A} (c : Completion A) : M A := fun w => (c, w).

(** A library call inside a handler. *)
Definition call {A} (o : Outcome A) : M A :=
  lift (match o with Value a => Normal a | Raise e => Throw e end).

(** [throw new Error(...)]. *)
Definition throw {A} (e : Exception) : M A := lift (Throw e).

(** [return res.status(status).json(body)]. *)
Definition respond {A} (status : nat) (body : ResBody) : M A :=
  lift (Return (res status body)).

(** A storage method that reads. *)
Definition query {A} (c : StorageCall) (f : MemStorage.t -> A) : M A :=
  fun w =>
    (Normal (f (storage w)), mkWorld (storage w) (calls w ++ [c])%list).

(** A storage method that writes. *)
Definition command {A} (c : StorageCall) (f : MemStorage.t -> A * MemStorage.t)
  : M A :=
  fun w =>
    let '(a, st) := f (storage w) in
    (Normal a, mkWorld st (calls w ++ [c])%list).

(** [try { body } catch (error) { res.status(status).json({ message }) }]
    around a whole handler; the body always ends by sending a response. *)
Definition try_catch (body : M Empty_set) (status : nat) (message : string)
  : World -> Response * World :=
  fun w =>
    match body w with
    | (Normal a, w') => match a with end
    | (Return r, w') => (r, w')
    | (Throw _, w') => (res status (Message message), w')
    end.

Module IStorage.

Definition getTenant id := query (call_getTenant id)
  (fun st => MemStorage.getTenant st id).
Definition getTenantBySlug slug := query (call_getTenantBySlug slug)
  (fun st => MemStorage.getTenantBySlug st slug).
Definition createTenant now id tenant := command (call_createTenant tenant)
  (fun st => MemStorage.createTenant now id st tenant).
Definition updateTenantPlan now id plan :=
  command (call_updateTenantPlan id plan)
    (fun st => MemStorage.updateTenantPlan now st id plan).
Definition getUserByEmail email := query (call_getUserByEmail email)
  (fun st => MemStorage.getUserByEmail st email).
Definition createUser now id user := command (call_createUser user)
  (fun st => MemStorage.createUser now id st user).
Definition getNotesByTenant tenantId :=
  query (call_getNotesByTenant tenantId)
    (fun st => MemStorage.getNotesByTenant st tenantId).
Definition getNote id tenantId := query (call_getNote id tenantId)
  (fun st => MemStorage.getNote st id tenantId).
Definition createNote now id note := command (call_createNote note)
  (fun st => MemStorage.createNote now id st note).
Definition updateNote now id tenantId updates :=
  command (call_updateNote id tenantId updates)
    (fun st => MemStorage.updateNote now st id tenantId updates).
Definition deleteNote id tenantId := command (call_deleteNote id tenantId)
  (fun st => MemStorage.deleteNote st id tenantId).
Definition countNotesByTenant tenantId :=
  query (call_countNotesByTenant tenantId)
    (fun st => MemStorage.countNotesByTenant st tenantId).

End IStorage.

(* ===================================================================== *)
(** ** middleware/auth.ts                                                 *)
(* ===================================================================== *)

(** A middleware either answers or calls [next()]; [authenticateToken]
    calls it with [req.user] set. *)
Inductive Middleware (A : Type) :=
| Respond (r : Response)
| Next (a : A).
Arguments Respond {A} r.
Arguments Next {A} a.

(** [!s] for a string-or-undefined [s]; [Some] of the string otherwise. *)
Definition truthy (s : option string) : option string :=
  match s with
  | None => None
  | Some v => if String.eqb v "" then None else Some v
  end.

(** [s.split(' ')]. *)
Fixpoint split_space (s : string) : list string :=
  match s with
  | EmptyString => [EmptyString]
  | String c s' =>
      if Ascii.eqb c " "%char then EmptyString :: split_space s'
      else
        match split_space s' with
        | piece :: pieces => String c piece :: pieces
        | [] => [String c EmptyString]
        end
  end.

(** [authHeader && authHeader.split(' ')[1]], up to truthiness. *)
Definition bearer_token (authHeader : option string) : option string :=
  match truthy authHeader with
  | None => None
  | Some h => truthy (nth_error (split_space h) 1)
  end.

Module Decoded.
Record t := mk { sub : string; role : string; tenantId : string }.
End Decoded.

(** What the mongoose documents give the middleware, ids already through
    [toString()]. *)
Module UserDoc.
Record t := mk { _id : string; email : string; role : Role; tenantId : string }.
End UserDoc.

Section Auth.

(** [jwt.verify(token, secret)] now: the claims, or the error it throws. *)
Variable jwt_verify : string -> string -> Outcome Decoded.t.
(** [UserModel.findById(id).populate('tenantId')] and
    [TenantModel.findById(id)]: a document, [null], or a thrown error. *)
Variable UserModel_findById : string -> Outcome (option UserDoc.t).
Variable TenantModel_findById : string -> Outcome (option TenantInfo.t).

(** The [try] block of [authenticateToken]: [Return] is one of its own
    401 answers, [Normal] is the [req.user] it builds before [next()]. *)
Definition authenticateToken_try (JWT_SECRET : option string) (token : string)
  : Completion AuthUser.t :=
  match truthy JWT_SECRET with
  | None => Throw (Error "JWT_SECRET environment variable is required")
  | Some jwtSecret =>
      match jwt_verify token jwtSecret with
      | Raise e => Throw e
      | Value decoded =>
          match UserModel_findById (Decoded.sub decoded) with
          | Raise e => Throw e
          | Value None => Return (res 401 (Message "User not found"))
          | Value (Some user) =>
              match TenantModel_findById (UserDoc.tenantId user) with
              | Raise e => Throw e
              | Value None => Return (res 401 (Message "Tenant not found"))
              | Value (Some tenant) =>
                  Normal
                    (AuthUser.mk (UserDoc._id user) (UserDoc.email user)
                       (UserDoc.role user) (UserDoc.tenantId user) tenant)
              end
          end
      end
  end.

Definition authenticateToken (JWT_SECRET : option string)
  (authorization : option string) : Middleware AuthUser.t :=
  match bearer_token authorization with
  | None => Respond (res 401 (Message "Access token required"))
  | Some token =>
      match authenticateToken_try JWT_SECRET token with
      | Normal user => Next user
      | Return r => Respond r
      | Throw _ => Respond (res 401 (Message "Invalid token"))
      end
  end.

End Auth.

(** [requireAdmin]: [req.user] may be missing. *)
Definition requireAdmin (user : option AuthUser.t) : Middleware unit :=
  match user with
  | None => Respond (res 401 (Message "Authentication required"))
  | Some u =>
      if negb (Role_eqb (AuthUser.role u) Admin)
      then Respond (res 403 (Message "Admin access required"))
      else Next tt
  end.

(* ===================================================================== *)
(** ** routes.ts                                                          *)
(* ===================================================================== *)

Module Routes.

Definition limit_message : string :=
  "Note limit reached. Free plan allows maximum 3 notes. Upgrade to Pro for unlimited notes.".

Definition secret_required : Exception :=
  Error "JWT_SECRET environment variable is required".

(** [x!] on an optional id that is then used as a string. *)
Definition bang (o : option string) : string :=
  match o with Some s => s | None => EmptyString end.

Section Handlers.

Variable isEmail : string -> bool.
(** [bcrypt.compare(password, hash)]. *)
Variable bcrypt_compare : string -> string -> bool.
(** [jwt.sign(claims, secret, { expiresIn: '24h' })] now. *)
Variable jwt_sign : JwtClaims.t -> string -> string.

(** The part of login and signup from [// Generate JWT] on. *)
Definition issue (JWT_SECRET : option string) (status : nat)
  (user : User.t) (tenant : Tenant.t) : M Empty_set :=
  match truthy JWT_SECRET with
  | None => throw secret_required
  | Some jwtSecret =>
      let token :=
        jwt_sign
          (JwtClaims.mk (User._id user) (User.role user) (User.tenantId user))
          jwtSecret in
      respond status
        (JsonAuth token
           (LoginUser.mk (User._id user) (User.email user) (User.role user)
              (LoginUser.mk_tenant (Tenant._id tenant) (Tenant.name tenant)
                 (Tenant.slug tenant) (Tenant.plan tenant))))
  end.

(** [POST /api/auth/login]. *)
Definition login_try (JWT_SECRET : option string) (body : ReqBody)
  : M Empty_set :=
  p <- call (loginSchema_parse isEmail body) ;;
  let '(email, password) := p in
  user <- IStorage.getUserByEmail email ;;
  match user with
  | None => respond 401 (Message "Invalid credentials")
  | Some user =>
      if negb (bcrypt_compare password (User.passwordHash user))
      then respond 401 (Message "Invalid credentials")
      else
        tenant <- IStorage.getTenant (User.tenantId user) ;;
        match tenant with
        | None => respond 401 (Message "Tenant not found")
        | Some tenant => issue JWT_SECRET 200 user tenant
        end
  end.

Definition login JWT_SECRET body :=
  try_catch (login_try JWT_SECRET body) 500 "Internal server error".

(** What signup reads from the environment: two [new Date()], two
    [nanoid()] and the salted [bcrypt.hash(password, 10)]. *)
Record SignupEnv := mkSignupEnv {
  tenant_now : Date; tenant_id : string;
  hash : string;
  user_now : Date; user_id : string }.

(** [POST /api/auth/signup]. *)
Definition signup_try (JWT_SECRET : option string) (env : SignupEnv)
  (body : ReqBody) : M Empty_set :=
  p <- call (signupSchema_parse isEmail body) ;;
  let '(email, password, organizationName) := p in
  existingUser <- IStorage.getUserByEmail email ;;
  match existingUser with
  | Some _ => respond 400 (Message "Email already registered")
  | None =>
      let slug := slug organizationName in
      existingTenant <- IStorage.getTenantBySlug slug ;;
      match existingTenant with
      | Some _ => respond 400 (Message "Organization name already taken")
      | None =>
          tenant <- IStorage.createTenant (tenant_now env) (tenant_id env)
                      (InsertTenant.mk organizationName slug free) ;;
          let passwordHash := hash env in
          user <- IStorage.createUser (user_now env) (user_id env)
                    (InsertUser.mk email passwordHash Admin
                       (bang (Tenant._id tenant))) ;;
          issue JWT_SECRET 201 user tenant
      end
  end.

Definition signup JWT_SECRET env body :=
  try_catch (signup_try JWT_SECRET env body) 500 "Internal server error".

(** [GET /api/notes]; [user] is [req.user!]. *)
Definition get_notes_try (user : AuthUser.t) : M Empty_set :=
  notes <- IStorage.getNotesByTenant (AuthUser.tenantId user) ;;
  respond 200 (JsonNotes notes).

Definition get_notes user :=
  try_catch (get_notes_try user) 500 "Internal server error".

(** [GET /api/notes/:id]. *)
Definition get_note_try (user : AuthUser.t) (id : string) : M Empty_set :=
  note <- IStorage.getNote id (AuthUser.tenantId user) ;;
  match note with
  | None => respond 404 (Message "Note not found")
  | Some note => respond 200 (JsonNote note)
  end.

Definition get_note user id :=
  try_catch (get_note_try user id) 500 "Internal server error".

(** [POST /api/notes]; [now] and [id] are what [createNote] reads. *)
Definition post_notes_try (now : Date) (id : string)
  (user : AuthUser.t) (body : ReqBody) : M Empty_set :=
  noteData <- call (insertNoteSchema_parse body) ;;
  (if Plan_eqb (TenantInfo.plan (AuthUser.tenant user)) free then
     noteCount <- IStorage.countNotesByTenant (AuthUser.tenantId user) ;;
     if Nat.leb 3 noteCount then respond 403 (Message limit_message)
     else ret tt
   else ret tt) ;;;
  note <- IStorage.createNote now id
            (InsertNote.mk (fst noteData) (snd noteData)
               (AuthUser.tenantId user) (AuthUser._id user)) ;;
  respond 201 (JsonNote note).

Definition post_notes now id user body :=
  try_catch (post_notes_try now id user body) 500 "Internal server error".

(** [PUT /api/notes/:id]. *)
Definition put_note_try (now : Date) (user : AuthUser.t) (id : string)
  (body : ReqBody) : M Empty_set :=
  updates <- call (updateNoteSchema_parse body) ;;
  note <- IStorage.updateNote now id (AuthUser.tenantId user) updates ;;
  match note with
  | None => respond 404 (Message "Note not found")
  | Some note => respond 200 (JsonNote note)
  end.

Definition put_note now user id body :=
  try_catch (put_note_try now user id body) 500 "Internal server error".

(** [DELETE /api/notes/:id]. *)
Definition delete_note_try (user : AuthUser.t) (id : string) : M Empty_set :=
  deleted <- IStorage.deleteNote id (AuthUser.tenantId user) ;;
  if negb deleted then respond 404 (Message "Note not found")
  else respond 200 (Message "Note deleted successfully").

Definition delete_note user id :=
  try_catch (delete_note_try user id) 500 "Internal server error".

(** The handler of [POST /api/tenants/:slug/upgrade].  [req.user!] is
    read inside the [try]: on a missing user the property access throws. *)
Definition upgrade_try (now : Date) (req_user : option AuthUser.t)
  (slug : string) : M Empty_set :=
  match req_user with
  | None => throw TypeError
  | Some user =>
      if negb (String.eqb (TenantInfo.slug (AuthUser.tenant user)) slug)
      then respond 403 (Message "Cannot upgrade other tenants")
      else
        updatedTenant <-
          IStorage.updateTenantPlan now (AuthUser.tenantId user) pro ;;
        match updatedTenant with
        | None => respond 404 (Message "Tenant not found")
        | Some updatedTenant =>
            respond 200
              (JsonUpgrade "Tenant upgraded to Pro plan successfully"
                 updatedTenant)
        end
  end.

(** The route: [requireAdmin], then the handler. *)
Definition upgrade (now : Date) (req_user : option AuthUser.t)
  (slug : string) : World -> Response * World :=
  fun w =>
    match requireAdmin req_user with
    | Respond r => (r, w)
    | Next _ =>
        try_catch (upgrade_try now req_user slug)
          500 "Internal server error" w
    end.

End Handlers.

End Routes.

(* ===================================================================== *)
(** ** The slug as the specification words it                             *)
(* ===================================================================== *)

(** Written from the specification, not from the code: lowercase the
    name, strip what is neither a lowercase letter, a digit nor
    whitespace, turn each maximal run of whitespace into one hyphen, keep
    at most 50 characters.  A lowercase letter is one of a to z, a digit
    one of 0 to 9; the specification speaks of alphanumeric characters and
    the slugs it shows are ASCII. *)
Module SlugSpec.

Definition is_lowercase_letter (c : ascii) : bool :=
  Nat.leb (nat_of_ascii "a") (nat_of_ascii c)
  && Nat.leb (nat_of_ascii c) (nat_of_ascii "z").

Definition is_digit (c : ascii) : bool :=
  Nat.leb (nat_of_ascii "0") (nat_of_ascii c)
  && Nat.leb (nat_of_ascii c) (nat_of_ascii "9").

Definition is_whitespace (c : ascii) : bool := JsString.isWhiteSpace c.

Definition kept (c : ascii) : bool :=
  is_lowercase_letter c || is_digit c || is_whitespace c.

Definition lowercase (l : list ascii) : list ascii :=
  map JsString.toLowerCase_unit l.

Definition strip (l : list ascii) : list ascii := filter kept l.

(** The maximal runs of a list: consecutive characters that are all
    whitespace or all not, each run tagged with which. *)
Fixpoint runs (l : list ascii) : list (bool * list ascii) :=
  match l with
  | [] => []
  | c :: l' =>
      match runs l' with
      | (ws, run) :: rest =>
          if Bool.eqb ws (is_whitespace c) then (ws, c :: run) :: rest
          else (is_whitespace c, [c]) :: (ws, run) :: rest
      | [] => [(is_whitespace c, [c])]
      end
  end.

Definition hyphen_for_run (r : bool * list ascii) : list ascii :=
  if fst r then ["-"%char] else snd r.

Definition hyphenate (l : list ascii) : list ascii :=
  List.concat (map hyphen_for_run (runs l)).

Definition truncate (n : nat) (l : list ascii) : list ascii := firstn n l.

Definition slug_spec (name : string) : string :=
  string_of_list_ascii
    (truncate 50
       (hyphenate (strip (lowercase (list_ascii_of_string name))))).

End SlugSpec.

(* ===================================================================== *)
(** ** Vocabulary of the statements, and sample data                      *)
(* ===================================================================== *)

(** The test both note loops apply. *)
Definition of_tenant (tenantId : string) (note : Note.t) : bool :=
  String.eqb (Note.tenantId note) tenantId.

(** [b] is a time stamp not earlier than the time stamp [a]. *)
Definition not_earlier (a b : option Date) : Prop :=
  match a, b with
  | Some x, Some y => (x <= y)%Z
  | _, _ => False
  end.

(** Backend selection as the specification states it: in the run over
    [world], once some access has answered with the fallback, no later
    access calls [connectDB]. *)
Definition fallback_is_sticky (MONGODB_URI : option string)
  (world : list bool) : Prop :=
  let answers := fst (Storage.run MONGODB_URI world Storage.initial) in
  forall i j b evs b' evs',
    i < j ->
    nth_error answers i = Some (b, evs) ->
    Storage.is_Fallback b = true ->
    nth_error answers j = Some (b', evs') ->
    Storage.attempts_connect evs' = false.

(** What [skip_class] does, on lists. *)
Fixpoint skip_units (cls : ascii -> bool) (l : list ascii) : list ascii :=
  match l with
  | [] => []
  | c :: l' => if cls c then skip_units cls l' else l
  end.

(** Neighbouring runs carry different tags. *)
Fixpoint alternate (rs : list (bool * list ascii)) : Prop :=
  match rs with
  | r :: (r' :: _) as rest => fst r <> fst r' /\ alternate rest
  | _ => True
  end.

Module Sample.

Definition acme : TenantInfo.t :=
  TenantInfo.mk "t-acme" "Acme Corporation" "acme" free.
Definition acme_pro : TenantInfo.t :=
  TenantInfo.mk "t-acme" "Acme Corporation" "acme" pro.
Definition globex : TenantInfo.t :=
  TenantInfo.mk "t-globex" "Globex Corporation" "globex" free.

Definition acme_admin : AuthUser.t :=
  AuthUser.mk "u-1" "admin@acme.test" Admin "t-acme" acme.
Definition acme_member : AuthUser.t :=
  AuthUser.mk "u-2" "user@acme.test" Member "t-acme" acme.
Definition acme_pro_member : AuthUser.t :=
  AuthUser.mk "u-2" "user@acme.test" Member "t-acme" acme_pro.
Definition globex_admin : AuthUser.t :=
  AuthUser.mk "u-3" "admin@globex.test" Admin "t-globex" globex.

Definition note (id tenantId : string) : string * Note.t :=
  (id, Note.mk (Some id) "title" "body" tenantId "u-1" (Some 0%Z) (Some 0%Z)).

Definition tenant_record (t : TenantInfo.t) : string * Tenant.t :=
  (TenantInfo._id t,
   Tenant.mk (Some (TenantInfo._id t)) (TenantInfo.name t)
     (TenantInfo.slug t) (TenantInfo.plan t) (Some 0%Z) (Some 0%Z)).

Definition user_record (id email hash tenantId : string) : string * User.t :=
  (id, User.mk (Some id) email hash Admin tenantId (Some 0%Z) (Some 0%Z)).

(** Two tenants, one admin of acme, and [notes]. *)
Definition store (notes : JsMap.t Note.t) : MemStorage.t :=
  MemStorage.mk [tenant_record acme; tenant_record globex]
    [user_record "u-1" "admin@acme.test" "hash-of-password" "t-acme"]
    notes.

Definition two_notes : MemStorage.t :=
  store [note "n1" "t-acme"; note "n2" "t-acme"; note "g1" "t-globex"].
Definition three_notes : MemStorage.t :=
  store [note "n1" "t-acme"; note "n2" "t-acme"; note "g1" "t-globex";
         note "n3" "t-acme"].

Definition world (st : MemStorage.t) : World := mkWorld st [].

(** Request bodies. *)
Definition note_body : ReqBody :=
  Some [("title", JString "Minutes"); ("body", JString "Agenda")].
Definition note_body_without_title : ReqBody :=
  Some [("body", JString "Agenda")].
Definition signup_body (password : string) : ReqBody :=
  Some [("email", JString "new@initech.test");
        ("password", JString password);
        ("organizationName", JString "Initech")].
Definition login_body : ReqBody :=
  Some [("email", JString "admin@acme.test");
        ("password", JString "password")].

(** Stand-ins for the libraries: an address has an [@], a password
    matches the hash made of it, a token is its subject behind the
    secret. *)
Definition isEmail (s : string) : bool :=
  existsb (Ascii.eqb "@"%char) (list_ascii_of_string s).
Definition bcrypt_compare (password hash : string) : bool :=
  String.eqb hash ("hash-of-" ++ password).
Definition jwt_sign (claims : JwtClaims.t) (secret : string) : string :=
  secret ++ ":" ++ Routes.bang (JwtClaims.sub claims).
Definition jwt_verify (token secret : string) : Outcome Decoded.t :=
  if String.prefix (secret ++ ":") token
  then Value (Decoded.mk
                 (String.substring (String.length secret + 1)
                    (String.length token) token)
                 "Admin" "t-acme")
  else Raise JsonWebTokenError.
Definition UserModel_findById (id : string) : Outcome (option UserDoc.t) :=
  if String.eqb id "u-1"
  then Value (Some (UserDoc.mk "u-1" "admin@acme.test" Admin "t-acme"))
  else Value None.
Definition TenantModel_findById (id : string)
  : Outcome (option TenantInfo.t) :=
  if String.eqb id "t-acme" then Value (Some acme) else Value None.

Definition signup_env : Routes.SignupEnv :=
  Routes.mkSignupEnv 1%Z "t-initech" "hash-of-secret1" 2%Z "u-9".

End Sample.

(* ===================================================================== *)
(** ** The seed route and the dashboard's view of the plan                *)
(* ===================================================================== *)

Module SeedRoute.

(** What [POST /api/auth/seed] reads from the environment: the clock and
    [nanoid()] for the two tenants, the salted hash of "password", and
    the clock and [nanoid()] of the [n]-th [createUser] of the loop. *)
Record SeedEnv := mkSeedEnv {
  acme_now : Date; acme_id : string;
  globex_now : Date; globex_id : string;
  hash : string;
  user_reads : nat -> Date * string }.

(** The array [users]. *)
Definition users (passwordHash : string) (acmeTenant globexTenant : Tenant.t)
  : list InsertUser.t :=
  [ InsertUser.mk "admin@acme.test" passwordHash Admin
      (Routes.bang (Tenant._id acmeTenant));
    InsertUser.mk "user@acme.test" passwordHash Member
      (Routes.bang (Tenant._id acmeTenant));
    InsertUser.mk "admin@globex.test" passwordHash Admin
      (Routes.bang (Tenant._id globexTenant));
    InsertUser.mk "user@globex.test" passwordHash Member
      (Routes.bang (Tenant._id globexTenant)) ].

(** [for (const userData of users) await createUser(userData)], the
    [n]-th round reading [user_reads n]. *)
Fixpoint createUsers (reads : nat -> Date * string) (n : nat)
  (users : list InsertUser.t) : M unit :=
  match users with
  | [] => ret tt
  | userData :: rest =>
      IStorage.createUser (fst (reads n)) (snd (reads n)) userData ;;;
      createUsers reads (S n) rest
  end.

Definition seed_try (env : SeedEnv) : M Empty_set :=
  existingTenant <- IStorage.getTenantBySlug "acme" ;;
  match existingTenant with
  | Some _ => respond 200 (Message "Seed data already exists")
  | None =>
      acmeTenant <- IStorage.createTenant (acme_now env) (acme_id env)
                      (InsertTenant.mk "Acme Corporation" "acme" free) ;;
      globexTenant <- IStorage.createTenant (globex_now env) (globex_id env)
                        (InsertTenant.mk "Globex Corporation" "globex" free) ;;
      let passwordHash := hash env in
      createUsers (user_reads env) 0
        (users passwordHash acmeTenant globexTenant) ;;;
      respond 201 (Message "Seed data created successfully")
  end.

Definition seed (env : SeedEnv) : World -> Response * World :=
  try_catch (seed_try env) 500 "Internal server error".

End SeedRoute.

(** The plan gates of the dashboard page (client side): [user] is the
    logged-in user or [null], [notes] the answer of [GET /api/notes]. *)
Module Dashboard.



Definition noteCount (notes : list Note.t) : nat := List.length notes.



End Dashboard.

(* ===================================================================== *)
(** ** Well-formed stores                                                 *)
(* ===================================================================== *)

(** A [Map] holds each key once. *)
Definition keys_unique {V} (m : JsMap.t V) : Prop := NoDup (map fst m).

(** Every record sits under its own [_id]. *)
Definition filed_by_id {V} (id : V -> option string) (m : JsMap.t V) : Prop :=
  Forall (fun kv => id (snd kv) = Some (fst kv)) m.

Record well_formed (st : MemStorage.t) : Prop := mk_well_formed {
  wf_tenants : keys_unique (MemStorage.tenants st)
               /\ filed_by_id Tenant._id (MemStorage.tenants st);
  wf_users : keys_unique (MemStorage.users st)
             /\ filed_by_id User._id (MemStorage.users st);
  wf_notes : keys_unique (MemStorage.notes st)
             /\ filed_by_id Note._id (MemStorage.notes st) }.

(** One step of a client of the storage: any of the six writing methods,
    with what it reads from the environment. *)
Inductive Write :=
| w_createTenant (now : Date) (id : string) (tenant : InsertTenant.t)
| w_updateTenantPlan (now : Date) (id : string) (plan : Plan)
| w_createUser (now : Date) (id : string) (user : InsertUser.t)
| w_createNote (now : Date) (id : string) (note : InsertNote.t)
| w_updateNote (now : Date) (id tenantId : string) (updates : UpdateNote.t)
| w_deleteNote (id tenantId : string).

Definition write (st : MemStorage.t) (op : Write) : MemStorage.t :=
  match op with
  | w_createTenant now id tenant =>
      snd (MemStorage.createTenant now id st tenant)
  | w_updateTenantPlan now id plan =>
      snd (MemStorage.updateTenantPlan now st id plan)
  | w_createUser now id user => snd (MemStorage.createUser now id st user)
  | w_createNote now id note => snd (MemStorage.createNote now id st note)
  | w_updateNote now id tenantId updates =>
      snd (MemStorage.updateNote now st id tenantId updates)
  | w_deleteNote id tenantId => snd (MemStorage.deleteNote st id tenantId)
  end.

(** The tenant and the user a signup creates. *)
Definition signup_tenant (env : Routes.SignupEnv) (organizationName : string)
  : Tenant.t :=
  Tenant.mk (Some (Routes.tenant_id env)) organizationName
    (slug organizationName) free
    (Some (Routes.tenant_now env)) (Some (Routes.tenant_now env)).

Definition signup_user (env : Routes.SignupEnv) (email : string) : User.t :=
  User.mk (Some (Routes.user_id env)) email (Routes.hash env) Admin
    (Routes.tenant_id env)
    (Some (Routes.user_now env)) (Some (Routes.user_now env)).

Definition signup_store (env : Routes.SignupEnv)
  (email organizationName : string) (st : MemStorage.t) : MemStorage.t :=
  MemStorage.mk
    (JsMap.set (Routes.tenant_id env) (signup_tenant env organizationName)
       (MemStorage.tenants st))
    (JsMap.set (Routes.user_id env) (signup_user env email)
       (MemStorage.users st))
    (MemStorage.notes st).

Definition payload (user : User.t) (tenant : Tenant.t) : LoginUser.t :=
  LoginUser.mk (User._id user) (User.email user) (User.role user)
    (LoginUser.mk_tenant (Tenant._id tenant) (Tenant.name tenant)
       (Tenant.slug tenant) (Tenant.plan tenant)).

Definition claims (user : User.t) : JwtClaims.t :=
  JwtClaims.mk (User._id user) (User.role user) (User.tenantId user).

(** The two tenants a seed creates and the store it leaves. *)
Definition seed_acme (env : SeedRoute.SeedEnv) : Tenant.t :=
  Tenant.mk (Some (SeedRoute.acme_id env)) "Acme Corporation" "acme" free
    (Some (SeedRoute.acme_now env)) (Some (SeedRoute.acme_now env)).

Definition seed_globex (env : SeedRoute.SeedEnv) : Tenant.t :=
  Tenant.mk (Some (SeedRoute.globex_id env)) "Globex Corporation" "globex"
    free (Some (SeedRoute.globex_now env)) (Some (SeedRoute.globex_now env)).

Definition seed_store (env : SeedRoute.SeedEnv) (st : MemStorage.t)
  : MemStorage.t :=
  fold_left
    (fun st nu =>
       snd (MemStorage.createUser (fst (SeedRoute.user_reads env (fst nu)))
              (snd (SeedRoute.user_reads env (fst nu))) st (snd nu)))
    (combine [0; 1; 2; 3]
       (SeedRoute.users (SeedRoute.hash env) (seed_acme env)
          (seed_globex env)))
    (MemStorage.with_tenants st
       (JsMap.set (SeedRoute.globex_id env) (seed_globex env)
          (JsMap.set (SeedRoute.acme_id env) (seed_acme env)
             (MemStorage.tenants st)))).

(** The header the client sends: [`Bearer ${token}`]. *)
Definition bearer_header (token : string) : string := "Bearer " ++ token.

Definition has_space (s : string) : bool :=
  existsb (Ascii.eqb " "%char) (list_ascii_of_string s).

(* ===================================================================== *)
(** * Properties                                                          *)
(* ===================================================================== *)

(** ** [Map] facts *)

Section JsMapFacts.

Context {V : Type}.
Implicit Types (m : JsMap.t V) (k : string) (v : V).

Lemma JsMap_get_set_same m k v : JsMap.get k (JsMap.set k v m) = Some v.
Proof.
  induction m as [|[k' v'] m IH]; simpl.
  - now rewrite String.eqb_refl.
  - destruct (String.eqb k' k) eqn:E; simpl; rewrite E; auto.
Qed.

Lemma JsMap_get_set_other m k k' v :
  k' <> k -> JsMap.get k' (JsMap.set k v m) = JsMap.get k' m.
Proof.
  intros Hne. induction m as [|[k0 v0] m IH]; simpl.
  - destruct (String.eqb k k') eqn:E; auto.
    apply String.eqb_eq in E. congruence.
  - destruct (String.eqb k0 k) eqn:E; simpl.
    + apply String.eqb_eq in E. subst k0.
      destruct (String.eqb k k') eqn:E'; auto.
      apply String.eqb_eq in E'. congruence.
    + now rewrite IH.
Qed.

Lemma JsMap_get_In m k v : JsMap.get k m = Some v -> In v (JsMap.values m).
Proof.
  induction m as [|[k' v'] m IH]; simpl; [discriminate|].
  destruct (String.eqb k' k); intros H.
  - injection H as ->. now left.
  - right. auto.
Qed.

End JsMapFacts.

(** ** The two loops over the notes are a filter and its length *)

Lemma getNotesByTenant_loop_filter tenantId notesArray acc :
  MemStorage.getNotesByTenant_loop tenantId notesArray acc
  = (acc ++ filter (of_tenant tenantId) notesArray)%list.
Proof.
  unfold MemStorage.getNotesByTenant_loop.
  revert acc. induction notesArray as [|note rest IH]; intros acc; simpl.
  - now rewrite app_nil_r.
  - rewrite IH. unfold of_tenant at 2.
    destruct (String.eqb (Note.tenantId note) tenantId); [|reflexivity].
    now rewrite <- app_assoc.
Qed.

Lemma countNotesByTenant_loop_filter tenantId notesArray count :
  MemStorage.countNotesByTenant_loop tenantId notesArray count
  = count + List.length (filter (of_tenant tenantId) notesArray).
Proof.
  unfold MemStorage.countNotesByTenant_loop.
  revert count. induction notesArray as [|note rest IH]; intros count; simpl.
  - lia.
  - rewrite IH. unfold of_tenant at 2.
    destruct (String.eqb (Note.tenantId note) tenantId); simpl; lia.
Qed.

Lemma getNotesByTenant_filter st tenantId :
  MemStorage.getNotesByTenant st tenantId
  = filter (of_tenant tenantId) (JsMap.values (MemStorage.notes st)).
Proof. apply getNotesByTenant_loop_filter. Qed.

(** ** Tenant isolation of the note queries *)

(** C1.  A note stored under id [n] for another tenant is not returned by
    [getNote n T]; what [getNote n T] returns is the note stored under [n]
    and it belongs to [T]; and [GET /api/notes/:id] answers the same 404
    for a note of another tenant as for an id that is not there. *)
Theorem getNote_tenant_isolation (st : MemStorage.t) (n T : string) :
  (forall note,
      JsMap.get n (MemStorage.notes st) = Some note ->
      Note.tenantId note <> T ->
      MemStorage.getNote st n T = None)
  /\ (forall note,
      MemStorage.getNote st n T = Some note <->
      JsMap.get n (MemStorage.notes st) = Some note /\ Note.tenantId note = T)
  /\ (forall user calls,
      AuthUser.tenantId user = T ->
      MemStorage.getNote st n T = None ->
      fst (Routes.get_note user n (mkWorld st calls))
      = res 404 (Message "Note not found")).
Proof.
  unfold MemStorage.getNote. split; [|split].
  - intros note Hget Hne. rewrite Hget.
    destruct (String.eqb (Note.tenantId note) T) eqn:E; [|reflexivity].
    apply String.eqb_eq in E. contradiction.
  - intros note. split.
    + destruct (JsMap.get n (MemStorage.notes st)) as [x|]; [|discriminate].
      destruct (String.eqb (Note.tenantId x) T) eqn:E; simpl; [|discriminate].
      intros [= <-]. split; [reflexivity|]. now apply String.eqb_eq.
    + intros [Hget Hten]. rewrite Hget.
      apply String.eqb_eq in Hten. now rewrite Hten.
  - intros user calls HT Hnone.
    unfold Routes.get_note, Routes.get_note_try, try_catch, bind,
      IStorage.getNote, query. simpl.
    rewrite HT. unfold MemStorage.getNote. now rewrite Hnone.
Qed.

(** C2.  Every note in the answer of [getNotesByTenant T] has tenant [T]. *)
Theorem getNotesByTenant_only_own (st : MemStorage.t) (T : string) :
  Forall (fun note => Note.tenantId note = T)
    (MemStorage.getNotesByTenant st T).
Proof.
  rewrite getNotesByTenant_filter. apply Forall_forall.
  intros note Hin. apply filter_In in Hin as [_ Hin].
  now apply String.eqb_eq.
Qed.

(** C10.  [countNotesByTenant T] is the length of [getNotesByTenant T]. *)
Theorem countNotesByTenant_length (st : MemStorage.t) (T : string) :
  MemStorage.countNotesByTenant st T
  = List.length (MemStorage.getNotesByTenant st T).
Proof.
  rewrite getNotesByTenant_filter.
  unfold MemStorage.countNotesByTenant.
  now rewrite countNotesByTenant_loop_filter.
Qed.

Lemma getNote_tenant_isolation_witness :
  MemStorage.getNote Sample.two_notes "g1" "t-acme" = None
  /\ fst (Routes.get_note Sample.acme_admin "g1"
            (Sample.world Sample.two_notes))
     = res 404 (Message "Note not found").
Proof.
  destruct (getNote_tenant_isolation Sample.two_notes "g1" "t-acme")
    as [Hdenied [_ H404]].
  assert (Hnull : MemStorage.getNote Sample.two_notes "g1" "t-acme" = None).
  { apply (Hdenied (snd (Sample.note "g1" "t-globex"))).
    - reflexivity.
    - simpl. discriminate. }
  split; [exact Hnull|].
  apply H404; [reflexivity | exact Hnull].
Defined.

(** ** Create, read back, update *)

Lemma createNote_getNote now id st noteData :
  MemStorage.getNote (snd (MemStorage.createNote now id st noteData)) id
    (InsertNote.tenantId noteData)
  = Some (fst (MemStorage.createNote now id st noteData)).
Proof.
  unfold MemStorage.getNote, MemStorage.createNote. simpl.
  rewrite JsMap_get_set_same. simpl. now rewrite String.eqb_refl.
Qed.

(** C9.  After [createNote] has returned a note with id [n] and tenant
    [T], [getNote n T] returns that very note; and an [updateNote n T] that
    follows, reading a clock that has not gone back, succeeds with an
    [updatedAt] not earlier than the one of the created note. *)
Theorem createNote_getNote_roundtrip
  (now : Date) (id : string) (st : MemStorage.t) (noteData : InsertNote.t)
  (now' : Date) (updates : UpdateNote.t) :
  (now <= now')%Z ->
  let note := fst (MemStorage.createNote now id st noteData) in
  let st' := snd (MemStorage.createNote now id st noteData) in
  Note._id note = Some id
  /\ MemStorage.getNote st' id (Note.tenantId note) = Some note
  /\ exists updated,
       fst (MemStorage.updateNote now' st' id (Note.tenantId note) updates)
       = Some updated
       /\ not_earlier (Note.updatedAt note) (Note.updatedAt updated).
Proof.
  intros Hclock note st'. split; [reflexivity|]. split.
  - apply createNote_getNote.
  - unfold MemStorage.updateNote. subst st'. simpl.
    rewrite JsMap_get_set_same. simpl. rewrite String.eqb_refl. simpl.
    eexists. split; [reflexivity|]. simpl. exact Hclock.
Qed.

Lemma createNote_getNote_roundtrip_witness :
  let note :=
    fst (MemStorage.createNote 5%Z "n9" Sample.two_notes
           (InsertNote.mk "Minutes" "Agenda" "t-acme" "u-1")) in
  let st' :=
    snd (MemStorage.createNote 5%Z "n9" Sample.two_notes
           (InsertNote.mk "Minutes" "Agenda" "t-acme" "u-1")) in
  MemStorage.getNote st' "n9" "t-acme" = Some note
  /\ exists updated,
       fst (MemStorage.updateNote 8%Z st' "n9" "t-acme"
              (UpdateNote.mk (Some "Minutes, final") None))
       = Some updated
       /\ not_earlier (Note.updatedAt note) (Note.updatedAt updated).
Proof.
  apply (createNote_getNote_roundtrip 5%Z "n9" Sample.two_notes
           (InsertNote.mk "Minutes" "Agenda" "t-acme" "u-1") 8%Z
           (UpdateNote.mk (Some "Minutes, final") None)).
  lia.
Defined.

(** ** Handlers *)

Ltac run_handler :=
  cbv [Routes.login Routes.login_try Routes.signup Routes.signup_try
       Routes.post_notes Routes.post_notes_try Routes.put_note
       Routes.put_note_try Routes.upgrade Routes.upgrade_try Routes.issue
       try_catch bind ret lift call throw respond query command
       IStorage.getTenant IStorage.getTenantBySlug IStorage.createTenant
       IStorage.updateTenantPlan IStorage.getUserByEmail IStorage.createUser
       IStorage.createNote IStorage.updateNote IStorage.countNotesByTenant
       storage calls].

(** C5, the claim as it stands: a free tenant at the limit whose request
    has no title is answered 500, not 403; and below the limit the same
    request creates nothing. *)
Lemma post_notes_invalid_body_counterexample :
  TenantInfo.plan (AuthUser.tenant Sample.acme_member) = free
  /\ MemStorage.countNotesByTenant Sample.three_notes "t-acme" = 3
  /\ Routes.post_notes 7%Z "n4" Sample.acme_member
       Sample.note_body_without_title (Sample.world Sample.three_notes)
     = (res 500 (Message "Internal server error"),
        Sample.world Sample.three_notes)
  /\ MemStorage.countNotesByTenant Sample.two_notes "t-acme" = 2
  /\ Routes.post_notes 7%Z "n4" Sample.acme_member
       Sample.note_body_without_title (Sample.world Sample.two_notes)
     = (res 500 (Message "Internal server error"),
        Sample.world Sample.two_notes).
Proof. repeat split; reflexivity. Qed.

(** C5, amended.  For a create-note request whose body passes the note
    schema: a free tenant holding three notes or more gets the 403 of the
    plan limit and the storage is left as it was, [createNote] not being
    called; a free tenant holding fewer gets 201 with the created note,
    which is then stored under the tenant; a pro tenant gets the same
    201 whatever the count, which is not even read. *)
Theorem post_notes_plan_limit
  (now : Date) (id : string) (user : AuthUser.t) (body : ReqBody)
  (title nbody : string) (st : MemStorage.t) (log : list StorageCall) :
  insertNoteSchema_parse body = Value (title, nbody) ->
  let T := AuthUser.tenantId user in
  let plan := TenantInfo.plan (AuthUser.tenant user) in
  let count := MemStorage.countNotesByTenant st T in
  let noteData := InsertNote.mk title nbody T (AuthUser._id user) in
  let note := fst (MemStorage.createNote now id st noteData) in
  let st' := snd (MemStorage.createNote now id st noteData) in
  let answer := Routes.post_notes now id user body (mkWorld st log) in
  (plan = free -> 3 <= count ->
   answer = (res 403 (Message Routes.limit_message),
             mkWorld st (log ++ [call_countNotesByTenant T])))
  /\ (plan = free -> count < 3 ->
      answer = (res 201 (JsonNote note),
                mkWorld st' (log ++ [call_countNotesByTenant T]
                                 ++ [call_createNote noteData])))
  /\ (plan = pro ->
      answer = (res 201 (JsonNote note),
                mkWorld st' (log ++ [call_createNote noteData])))
  /\ MemStorage.getNote st' id T = Some note
  /\ Note.tenantId note = T.
Proof.
  intros Hparse T plan count noteData note st' answer.
  subst answer. run_handler. rewrite Hparse. fold T plan count.
  repeat split.
  - intros Hfree Hge. apply Nat.leb_le in Hge. unfold count in Hge.
    rewrite Hfree. cbn [Plan_eqb]. cbv beta iota. rewrite Hge. reflexivity.
  - intros Hfree Hlt. apply Nat.leb_gt in Hlt. unfold count in Hlt.
    rewrite Hfree. cbn [Plan_eqb]. cbv beta iota. rewrite Hlt.
    cbn. rewrite <- app_assoc. reflexivity.
  - intros Hpro. rewrite Hpro. reflexivity.
  - apply (createNote_getNote now id st noteData).
Qed.

Lemma post_notes_plan_limit_witness :
  Routes.post_notes 7%Z "n4" Sample.acme_member Sample.note_body
    (Sample.world Sample.three_notes)
  = (res 403 (Message Routes.limit_message),
     mkWorld Sample.three_notes [call_countNotesByTenant "t-acme"])
  /\ status (fst (Routes.post_notes 7%Z "n3" Sample.acme_member
                    Sample.note_body (Sample.world Sample.two_notes)))
     = 201
  /\ status (fst (Routes.post_notes 7%Z "n4" Sample.acme_pro_member
                    Sample.note_body (Sample.world Sample.three_notes)))
     = 201.
Proof.
  split; [|split].
  - apply (post_notes_plan_limit 7%Z "n4" Sample.acme_member
             Sample.note_body "Minutes" "Agenda" Sample.three_notes []);
      [reflexivity | reflexivity | vm_compute; lia].
  - destruct (post_notes_plan_limit 7%Z "n3" Sample.acme_member
                Sample.note_body "Minutes" "Agenda" Sample.two_notes []
                eq_refl) as [_ [Hbelow _]].
    unfold Sample.world. rewrite Hbelow; [reflexivity | reflexivity |].
    vm_compute. lia.
  - destruct (post_notes_plan_limit 7%Z "n4" Sample.acme_pro_member
                Sample.note_body "Minutes" "Agenda" Sample.three_notes []
                eq_refl) as [_ [_ [Hpro _]]].
    unfold Sample.world. rewrite Hpro; reflexivity.
Defined.

(** C6, the claim as it stands: a signup with a five-character password
    and a note without title are both answered 500, not 400. *)
Lemma invalid_body_counterexample :
  signupSchema_parse Sample.isEmail (Sample.signup_body "12345")
  = Raise ZodError
  /\ status (fst (Routes.signup Sample.isEmail Sample.jwt_sign (Some "s3cret")
                    Sample.signup_env (Sample.signup_body "12345")
                    (Sample.world Sample.two_notes))) = 500
  /\ insertNoteSchema_parse Sample.note_body_without_title = Raise ZodError
  /\ status (fst (Routes.post_notes 7%Z "n4" Sample.acme_member
                    Sample.note_body_without_title
                    (Sample.world Sample.two_notes))) = 500.
Proof. repeat split; reflexivity. Qed.

Lemma parse_throws_ZodError :
  (forall isEmail body e, loginSchema_parse isEmail body = Raise e -> e = ZodError)
  /\ (forall isEmail body e,
         signupSchema_parse isEmail body = Raise e -> e = ZodError)
  /\ (forall body e, insertNoteSchema_parse body = Raise e -> e = ZodError)
  /\ (forall body e, updateNoteSchema_parse body = Raise e -> e = ZodError).
Proof.
  unfold loginSchema_parse, signupSchema_parse, insertNoteSchema_parse,
    updateNoteSchema_parse.
  repeat split; intros;
    repeat match goal with
      | H : match ?x with _ => _ end = Raise _ |- _ => destruct x
      end; congruence.
Qed.

(** C6, amended.  A request whose body fails its schema is answered with
    status 500 and the message of the handler's [catch], the storage not
    being touched: so for signup, login, create-note and update-note; in
    particular for a signup whose password has fewer than 6 characters and
    for a note whose title is missing. *)
Theorem invalid_body_is_500
  (isEmail : string -> bool) (bcrypt_compare : string -> string -> bool)
  (jwt_sign : JwtClaims.t -> string -> string)
  (JWT_SECRET : option string) (env : Routes.SignupEnv)
  (now : Date) (id : string) (user : AuthUser.t) (body : ReqBody)
  (w : World) :
  let internal := (res 500 (Message "Internal server error"), w) in
  (signupSchema_parse isEmail body = Raise ZodError ->
   Routes.signup isEmail jwt_sign JWT_SECRET env body w = internal)
  /\ (loginSchema_parse isEmail body = Raise ZodError ->
      Routes.login isEmail bcrypt_compare jwt_sign JWT_SECRET body w
      = internal)
  /\ (insertNoteSchema_parse body = Raise ZodError ->
      Routes.post_notes now id user body w = internal)
  /\ (updateNoteSchema_parse body = Raise ZodError ->
      Routes.put_note now user id body w = internal)
  /\ (forall o password,
         body = Some o ->
         field "password" o = Some (JString password) ->
         String.length password < 6 ->
         Routes.signup isEmail jwt_sign JWT_SECRET env body w = internal)
  /\ (forall o,
         body = Some o ->
         field "title" o = None ->
         Routes.post_notes now id user body w = internal).
Proof.
  intros internal. subst internal.
  assert (Hsignup : signupSchema_parse isEmail body = Raise ZodError ->
            Routes.signup isEmail jwt_sign JWT_SECRET env body w
            = (res 500 (Message "Internal server error"), w)).
  { intros H. run_handler. now rewrite H. }
  assert (Hnote : insertNoteSchema_parse body = Raise ZodError ->
            Routes.post_notes now id user body w
            = (res 500 (Message "Internal server error"), w)).
  { intros H. run_handler. now rewrite H. }
  repeat split.
  - exact Hsignup.
  - intros H. run_handler. now rewrite H.
  - exact Hnote.
  - intros H. run_handler. now rewrite H.
  - intros o password -> Hfield Hshort. apply Hsignup.
    unfold signupSchema_parse. rewrite Hfield.
    unfold z_string_min at 1.
    apply Nat.leb_gt in Hshort. rewrite Hshort.
    destruct (z_string_email isEmail (field "email" o)); reflexivity.
  - intros o -> Hfield. apply Hnote.
    unfold insertNoteSchema_parse. now rewrite Hfield.
Qed.

Lemma invalid_body_is_500_witness :
  Routes.signup Sample.isEmail Sample.jwt_sign (Some "s3cret")
    Sample.signup_env (Sample.signup_body "12345")
    (Sample.world Sample.two_notes)
  = (res 500 (Message "Internal server error"),
     Sample.world Sample.two_notes)
  /\ Routes.post_notes 7%Z "n4" Sample.acme_member
       Sample.note_body_without_title (Sample.world Sample.two_notes)
     = (res 500 (Message "Internal server error"),
        Sample.world Sample.two_notes).
Proof.
  destruct (invalid_body_is_500 Sample.isEmail Sample.bcrypt_compare
              Sample.jwt_sign (Some "s3cret") Sample.signup_env 7%Z "n4"
              Sample.acme_member (Sample.signup_body "12345")
              (Sample.world Sample.two_notes))
    as [Hsignup _].
  destruct (invalid_body_is_500 Sample.isEmail Sample.bcrypt_compare
              Sample.jwt_sign (Some "s3cret") Sample.signup_env 7%Z "n4"
              Sample.acme_member Sample.note_body_without_title
              (Sample.world Sample.two_notes))
    as [_ [_ [Hnote _]]].
  split; [apply Hsignup | apply Hnote]; reflexivity.
Defined.

(** C8.  On [POST /api/tenants/:slug/upgrade] by an authenticated caller:
    unless the caller is an Admin whose own tenant has the slug of the
    path, the answer is 403, no storage method is called and the storage
    is as before, also for an Admin of another tenant; when both hold,
    the one storage call is [updateTenantPlan] on the caller's own tenant
    id with plan pro, and the storage is what that call leaves. *)
Theorem upgrade_requires_own_admin
  (now : Date) (user : AuthUser.t) (slug : string) (w : World) :
  let own := TenantInfo.slug (AuthUser.tenant user) in
  let answer := Routes.upgrade now (Some user) slug w in
  (AuthUser.role user <> Admin \/ own <> slug ->
   status (fst answer) = 403 /\ snd answer = w)
  /\ (AuthUser.role user = Admin /\ own = slug ->
      calls (snd answer)
      = (calls w ++ [call_updateTenantPlan (AuthUser.tenantId user) pro])%list
      /\ storage (snd answer)
         = snd (MemStorage.updateTenantPlan now (storage w)
                  (AuthUser.tenantId user) pro)).
Proof.
  intros own answer. subst own answer.
  unfold Routes.upgrade, requireAdmin.
  destruct (AuthUser.role user) eqn:Hrole; simpl.
  - unfold Routes.upgrade_try, try_catch.
    destruct (String.eqb (TenantInfo.slug (AuthUser.tenant user)) slug)
      eqn:Hslug; simpl.
    + apply String.eqb_eq in Hslug. split.
      * intros [Hr | Hs]; congruence.
      * intros _. run_handler.
        destruct (MemStorage.updateTenantPlan now
                    (let (storage0, _) := w in storage0)
                    (AuthUser.tenantId user) pro) as [[t|] st'];
          split; reflexivity.
    + apply String.eqb_neq in Hslug. split.
      * intros _. split; reflexivity.
      * intros [_ Hs]. contradiction.
  - split.
    + intros _. split; reflexivity.
    + intros [Hr _]. discriminate.
Qed.

Lemma upgrade_requires_own_admin_witness :
  status (fst (Routes.upgrade 9%Z (Some Sample.acme_admin) "globex"
                 (Sample.world Sample.two_notes))) = 403
  /\ snd (Routes.upgrade 9%Z (Some Sample.acme_admin) "globex"
            (Sample.world Sample.two_notes))
     = Sample.world Sample.two_notes
  /\ calls (snd (Routes.upgrade 9%Z (Some Sample.acme_admin) "acme"
                   (Sample.world Sample.two_notes)))
     = [call_updateTenantPlan "t-acme" pro].
Proof.
  destruct (upgrade_requires_own_admin 9%Z Sample.acme_admin "globex"
              (Sample.world Sample.two_notes)) as [Hdenied _].
  destruct (upgrade_requires_own_admin 9%Z Sample.acme_admin "acme"
              (Sample.world Sample.two_notes)) as [_ Hgranted].
  destruct Hdenied as [H403 Hsame].
  { right. simpl. discriminate. }
  destruct Hgranted as [Hcalls _].
  { split; reflexivity. }
  split; [exact H403|]. split; [exact Hsame | exact Hcalls].
Defined.

(** ** Backend selection *)

(** C3, the claim as it stands: with the database unreachable twice, the
    first access answers with the fallback and the second one calls
    [connectDB] and [mongoose.connect] again; and when the database is
    back at the second access, that access answers with the primary. *)
Lemma fallback_not_sticky_counterexample :
  fst (Storage.run (Some "mongodb://db") [false; false] Storage.initial)
  = [(Storage.Fallback MemStorage.new,
      [Storage.CallConnectDB; Storage.MongooseConnect "mongodb://db"]);
     (Storage.Fallback MemStorage.new,
      [Storage.CallConnectDB; Storage.MongooseConnect "mongodb://db"])]
  /\ ~ fallback_is_sticky (Some "mongodb://db") [false; false]
  /\ map fst
       (fst (Storage.run (Some "mongodb://db") [false; true] Storage.initial))
     = [Storage.Fallback MemStorage.new;
        Storage.Primary Storage.new_MongoStorage].
Proof.
  split; [reflexivity|]. split; [|reflexivity].
  intros Hsticky.
  specialize (Hsticky 0 1 (Storage.Fallback MemStorage.new)
    [Storage.CallConnectDB; Storage.MongooseConnect "mongodb://db"]
    (Storage.Fallback MemStorage.new)
    [Storage.CallConnectDB; Storage.MongooseConnect "mongodb://db"]).
  simpl in Hsticky.
  assert (Hfalse : true = false) by (apply Hsticky; auto).
  discriminate Hfalse.
Qed.

Lemma run_primary uri world p m :
  Storage.mongoStorage p = Some m ->
  Storage.run uri world p = (map (fun _ => (Storage.Primary m, [])) world, p).
Proof.
  intros Hm. induction world as [|reachable world IH]; simpl; [reflexivity|].
  unfold Storage.getStorage, Storage.initializeStorage.
  rewrite Hm, IH. reflexivity.
Qed.

(** C3, amended.  Selection is sticky once the primary has connected:
    from then on every access of a run answers with the primary and
    causes no call of [connectDB].  As long as it has not connected,
    every access calls [connectDB], whether or not the fallback was
    answered before; an access whose attempt succeeds answers with the
    primary from then on, and one whose attempt fails answers with the
    fallback object, which is created at the first failure and kept. *)
Theorem selection_sticky_once_connected
  (MONGODB_URI : option string) (reachable : bool) (p : Storage.t) :
  (forall m world,
      Storage.mongoStorage p = Some m ->
      Storage.run MONGODB_URI world p
      = (map (fun _ => (Storage.Primary m, [])) world, p))
  /\ (Storage.mongoStorage p = None ->
      let '(b, p', evs) := Storage.getStorage MONGODB_URI reachable p in
      Storage.attempts_connect evs = true
      /\ match b with
         | Storage.Primary m => Storage.mongoStorage p' = Some m
         | Storage.Fallback mem =>
             Storage.mongoStorage p' = None
             /\ Storage.memoryStorageFallback p' = Some mem
             /\ (forall mem0,
                    Storage.memoryStorageFallback p = Some mem0 ->
                    mem = mem0)
             /\ (Storage.memoryStorageFallback p = None ->
                 mem = MemStorage.new)
         end).
Proof.
  split.
  - intros m world Hm. now apply run_primary.
  - intros Hnone.
    unfold Storage.getStorage, Storage.initializeStorage, Storage.connectDB.
    rewrite Hnone.
    destruct MONGODB_URI as [mongoUri|]; simpl.
    + destruct (String.eqb mongoUri ""); [|destruct reachable]; simpl;
        repeat split; auto;
        destruct (Storage.memoryStorageFallback p); congruence.
    + repeat split; auto;
        destruct (Storage.memoryStorageFallback p); congruence.
Qed.

Lemma selection_sticky_once_connected_witness :
  Storage.run (Some "mongodb://db") [false; true; false]
    (Storage.mk (Some Storage.new_MongoStorage) None)
  = ([(Storage.Primary Storage.new_MongoStorage, []);
      (Storage.Primary Storage.new_MongoStorage, []);
      (Storage.Primary Storage.new_MongoStorage, [])],
     Storage.mk (Some Storage.new_MongoStorage) None)
  /\ Storage.attempts_connect
       (snd (Storage.getStorage (Some "mongodb://db") false
               (Storage.mk None (Some Sample.two_notes)))) = true.
Proof.
  split.
  - apply (proj1 (selection_sticky_once_connected (Some "mongodb://db")
                    false (Storage.mk (Some Storage.new_MongoStorage) None))
             Storage.new_MongoStorage [false; true; false]).
    reflexivity.
  - apply (proj2 (selection_sticky_once_connected (Some "mongodb://db")
                    false (Storage.mk None (Some Sample.two_notes)))).
    reflexivity.
Defined.

(** ** The signing secret *)

(** C4, the claim as it stands: a bearer token that authenticates while
    the secret is set is answered 401 "Invalid token" once the secret is
    absent; and a login that succeeds while the secret is set is answered
    500 by the handler's own [catch] once it is absent. *)
Lemma absent_secret_counterexample :
  authenticateToken Sample.jwt_verify Sample.UserModel_findById
    Sample.TenantModel_findById (Some "s3cret") (Some "Bearer s3cret:u-1")
  = Next Sample.acme_admin
  /\ authenticateToken Sample.jwt_verify Sample.UserModel_findById
       Sample.TenantModel_findById None (Some "Bearer s3cret:u-1")
     = Respond (res 401 (Message "Invalid token"))
  /\ status (fst (Routes.login Sample.isEmail Sample.bcrypt_compare
                    Sample.jwt_sign (Some "s3cret") Sample.login_body
                    (Sample.world Sample.two_notes))) = 200
  /\ fst (Routes.login Sample.isEmail Sample.bcrypt_compare
            Sample.jwt_sign None Sample.login_body
            (Sample.world Sample.two_notes))
     = res 500 (Message "Internal server error").
Proof. repeat split; reflexivity. Qed.

(** C4, amended.  With the signing secret absent, token issuance fails
    request by request and not fatally: login and signup never answer
    with a token, and a login or signup that gets as far as issuing the
    token is answered with status 500 by the [catch] of its handler. *)
Theorem absent_secret_issuance_is_500
  (isEmail : string -> bool) (bcrypt_compare : string -> string -> bool)
  (jwt_sign : JwtClaims.t -> string -> string)
  (JWT_SECRET : option string) (env : Routes.SignupEnv)
  (body : ReqBody) (w : World) :
  truthy JWT_SECRET = None ->
  let login :=
    fst (Routes.login isEmail bcrypt_compare jwt_sign JWT_SECRET body w) in
  let signup :=
    fst (Routes.signup isEmail jwt_sign JWT_SECRET env body w) in
  let internal := res 500 (Message "Internal server error") in
  (forall token user,
      json login <> JsonAuth token user /\ json signup <> JsonAuth token user)
  /\ (forall email password user tenant,
         loginSchema_parse isEmail body = Value (email, password) ->
         MemStorage.getUserByEmail (storage w) email = Some user ->
         bcrypt_compare password (User.passwordHash user) = true ->
         MemStorage.getTenant (storage w) (User.tenantId user) = Some tenant ->
         login = internal)
  /\ (forall email password organizationName,
         signupSchema_parse isEmail body
         = Value (email, password, organizationName) ->
         MemStorage.getUserByEmail (storage w) email = None ->
         MemStorage.getTenantBySlug (storage w) (slug organizationName)
         = None ->
         signup = internal).
Proof.
  intros Hsecret login signup internal. subst login signup internal.
  split; [|split].
  - intros token user. split.
    + run_handler. rewrite Hsecret.
      destruct (loginSchema_parse isEmail body) as [[email password]|e];
        simpl; try discriminate.
      destruct (MemStorage.getUserByEmail _ email) as [u|];
        simpl; try discriminate.
      destruct (bcrypt_compare password (User.passwordHash u));
        simpl; try discriminate.
      destruct (MemStorage.getTenant _ (User.tenantId u));
        simpl; discriminate.
    + run_handler. rewrite Hsecret.
      destruct (signupSchema_parse isEmail body)
        as [[[email password] organizationName]|e];
        simpl; try discriminate.
      destruct (MemStorage.getUserByEmail _ email);
        simpl; try discriminate.
      destruct (MemStorage.getTenantBySlug _ (slug organizationName));
        simpl; discriminate.
  - intros email password user tenant Hparse Huser Hpw Hten.
    run_handler. rewrite Hsecret, Hparse. simpl.
    destruct w as [st log]. simpl in *.
    rewrite Huser. simpl. rewrite Hpw. simpl. rewrite Hten. reflexivity.
  - intros email password organizationName Hparse Huser Hslug.
    run_handler. rewrite Hsecret, Hparse. simpl.
    destruct w as [st log]. simpl in *.
    rewrite Huser. simpl. rewrite Hslug. reflexivity.
Qed.

Lemma absent_secret_issuance_is_500_witness :
  fst (Routes.login Sample.isEmail Sample.bcrypt_compare Sample.jwt_sign
         None Sample.login_body (Sample.world Sample.two_notes))
  = res 500 (Message "Internal server error").
Proof.
  destruct (absent_secret_issuance_is_500 Sample.isEmail
              Sample.bcrypt_compare Sample.jwt_sign None Sample.signup_env
              Sample.login_body (Sample.world Sample.two_notes) eq_refl)
    as [_ [Hlogin _]].
  apply (Hlogin "admin@acme.test" "password"
           (snd (Sample.user_record "u-1" "admin@acme.test"
                   "hash-of-password" "t-acme"))
           (snd (Sample.tenant_record Sample.acme)));
    reflexivity.
Defined.

(** ** The slug *)

Section SlugRefinement.

Lemma skip_class_length cls s :
  String.length (JsString.skip_class cls s) <= String.length s.
Proof.
  induction s as [|c s IH]; simpl; [lia|].
  destruct (cls c); simpl; lia.
Qed.

Lemma units_skip_class cls s :
  list_ascii_of_string (JsString.skip_class cls s) = skip_units cls (list_ascii_of_string s).
Proof.
  induction s as [|c s IH]; simpl; [reflexivity|].
  destruct (cls c); auto.
Qed.

Lemma units_append s t : list_ascii_of_string (s ++ t) = (list_ascii_of_string s ++ list_ascii_of_string t)%list.
Proof. induction s as [|c s IH]; simpl; [reflexivity | now rewrite IH]. Qed.

Lemma units_toLowerCase s :
  list_ascii_of_string (JsString.toLowerCase s) = SlugSpec.lowercase (list_ascii_of_string s).
Proof.
  induction s as [|c s IH]; simpl; [reflexivity | now rewrite IH].
Qed.

(** The negated class of the code is the complement of what the
    specification keeps. *)
Lemma notLowerAlnumSpace_kept c :
  JsString.notLowerAlnumSpace c = negb (SlugSpec.kept c).
Proof. reflexivity. Qed.

Lemma units_replace_class_empty s :
  list_ascii_of_string (JsString.replace_class_empty JsString.notLowerAlnumSpace s)
  = SlugSpec.strip (list_ascii_of_string s).
Proof.
  unfold SlugSpec.strip.
  induction s as [|c s IH]; simpl; [reflexivity|].
  rewrite notLowerAlnumSpace_kept.
  destruct (SlugSpec.kept c); simpl; now rewrite IH.
Qed.

Lemma units_substring0 n s :
  list_ascii_of_string (JsString.substring0 n s) = SlugSpec.truncate n (list_ascii_of_string s).
Proof.
  unfold JsString.substring0, SlugSpec.truncate.
  revert s. induction n as [|n IH]; intros [|c s]; simpl; try reflexivity.
  now rewrite IH.
Qed.

Lemma runs_head c l :
  exists run rest, SlugSpec.runs (c :: l) = (SlugSpec.is_whitespace c, run) :: rest.
Proof.
  simpl. destruct (SlugSpec.runs l) as [|[ws run] rest]; [eauto|].
  destruct (Bool.eqb ws (SlugSpec.is_whitespace c)) eqn:E; [|eauto].
  apply Bool.eqb_prop in E. subst ws. eauto.
Qed.

Lemma runs_partition l : List.concat (map snd (SlugSpec.runs l)) = l.
Proof.
  induction l as [|c l IH]; simpl; [reflexivity|].
  destruct (SlugSpec.runs l) as [|[ws run] rest]; simpl in *.
  - now subst l.
  - destruct (Bool.eqb ws (SlugSpec.is_whitespace c)); simpl; now rewrite IH.
Qed.

Lemma runs_homogeneous l :
  Forall (fun r => snd r <> []
                   /\ Forall (fun c => SlugSpec.is_whitespace c = fst r) (snd r))
    (SlugSpec.runs l).
Proof.
  induction l as [|c l IH]; simpl; [constructor|].
  destruct (SlugSpec.runs l) as [|[ws run] rest].
  - repeat constructor. discriminate.
  - inversion IH as [|r rs [Hne Hall] Hrest]; subst.
    destruct (Bool.eqb ws (SlugSpec.is_whitespace c)) eqn:E.
    + apply Bool.eqb_prop in E. constructor; [|assumption].
      simpl in *. split; [discriminate|]. constructor; auto.
    + constructor; [|assumption].
      simpl. split; [discriminate|]. repeat constructor.
Qed.

Lemma runs_alternate l : alternate (SlugSpec.runs l).
Proof.
  induction l as [|c l IH]; simpl; [exact I|].
  destruct (SlugSpec.runs l) as [|[ws run] rest]; [exact I|].
  destruct (Bool.eqb ws (SlugSpec.is_whitespace c)) eqn:E.
  - destruct rest; [exact I|]. exact IH.
  - apply Bool.eqb_false_iff in E. split; [|exact IH].
    simpl. congruence.
Qed.

End SlugRefinement.

Lemma hyphenate_copy c l :
  SlugSpec.is_whitespace c = false ->
  SlugSpec.hyphenate (c :: l) = c :: SlugSpec.hyphenate l.
Proof.
  intros Hc. unfold SlugSpec.hyphenate. simpl.
  destruct (SlugSpec.runs l) as [|[ws run] rest]; rewrite Hc.
  - reflexivity.
  - destruct ws; reflexivity.
Qed.

Lemma hyphenate_run c l :
  SlugSpec.is_whitespace c = true ->
  SlugSpec.hyphenate (c :: l)
  = "-"%char :: SlugSpec.hyphenate (skip_units SlugSpec.is_whitespace l).
Proof.
  revert c. induction l as [|d l IH]; intros c Hc.
  - unfold SlugSpec.hyphenate. simpl. now rewrite Hc.
  - destruct (runs_head d l) as [run [rest Hruns]].
    assert (Hstep : SlugSpec.hyphenate (c :: d :: l)
                    = if SlugSpec.is_whitespace d
                      then SlugSpec.hyphenate (d :: l)
                      else "-"%char :: SlugSpec.hyphenate (d :: l)).
    { unfold SlugSpec.hyphenate.
      change (SlugSpec.runs (c :: d :: l))
        with (match SlugSpec.runs (d :: l) with
              | (ws, run) :: rest =>
                  if Bool.eqb ws (SlugSpec.is_whitespace c)
                  then (ws, c :: run) :: rest
                  else (SlugSpec.is_whitespace c, [c]) :: (ws, run) :: rest
              | [] => [(SlugSpec.is_whitespace c, [c])]
              end).
      rewrite Hruns, Hc.
      destruct (SlugSpec.is_whitespace d); reflexivity. }
    rewrite Hstep. simpl skip_units.
    destruct (SlugSpec.is_whitespace d) eqn:Hd; [|reflexivity].
    now apply IH.
Qed.

Lemma units_replace_class_plus s :
  list_ascii_of_string
    (JsString.replace_class_plus JsString.isWhiteSpace "-" s)
  = SlugSpec.hyphenate (list_ascii_of_string s).
Proof.
  remember (String.length s) as n eqn:Hn.
  assert (Hlen : String.length s <= n) by lia. clear Hn.
  revert s Hlen. induction n as [|n IH]; intros [|c s'] Hlen;
    simp replace_class_plus; try reflexivity; simpl in Hlen; [lia|].
  destruct (JsString.isWhiteSpace c) eqn:Hc; simpl.
  - rewrite IH.
    + rewrite units_skip_class. symmetry. now apply hyphenate_run.
    + pose proof (skip_class_length JsString.isWhiteSpace s'). lia.
  - rewrite IH by lia. symmetry. now apply hyphenate_copy.
Qed.

Lemma length_string_of_units l :
  String.length (string_of_list_ascii l) = List.length l.
Proof. induction l as [|c l IH]; simpl; [reflexivity | now rewrite IH]. Qed.

(** The slug is what signup looks up and what it stores: a signup that
    passes its checks calls [getTenantBySlug] and [createTenant] with
    [slug organizationName]. *)
Lemma signup_uses_slug
  (isEmail : string -> bool) (jwt_sign : JwtClaims.t -> string -> string)
  (JWT_SECRET : option string) (env : Routes.SignupEnv) (body : ReqBody)
  (email password organizationName : string) (w : World) :
  signupSchema_parse isEmail body
  = Value (email, password, organizationName) ->
  MemStorage.getUserByEmail (storage w) email = None ->
  MemStorage.getTenantBySlug (storage w) (slug organizationName) = None ->
  calls (snd (Routes.signup isEmail jwt_sign JWT_SECRET env body w))
  = (calls w
     ++ [call_getUserByEmail email;
         call_getTenantBySlug (slug organizationName);
         call_createTenant
           (InsertTenant.mk organizationName (slug organizationName) free);
         call_createUser
           (InsertUser.mk email (Routes.hash env) Admin
              (Routes.tenant_id env))])%list.
Proof.
  intros Hparse Huser Hslug. run_handler. rewrite Hparse. simpl.
  destruct w as [st log]. simpl in *. rewrite Huser. simpl.
  rewrite Hslug. simpl.
  destruct (truthy JWT_SECRET); simpl;
    repeat rewrite <- app_assoc; reflexivity.
Qed.

(** C7.  For every organization name the slug computed at signup is the
    name lowercased, stripped of what is neither a lowercase letter, a
    digit nor whitespace, with each maximal run of whitespace turned into
    one hyphen, cut to 50 characters; and "Acme Corp!" gives "acme-corp". *)
Theorem slug_refines_spec (organizationName : string) :
  slug organizationName = SlugSpec.slug_spec organizationName
  /\ String.length (slug organizationName) <= 50
  /\ slug "Acme Corp!" = "acme-corp".
Proof.
  assert (Heq : slug organizationName = SlugSpec.slug_spec organizationName).
  { unfold slug, SlugSpec.slug_spec.
    rewrite <- (string_of_list_ascii_of_string (JsString.substring0 _ _)).
    now rewrite units_substring0, units_replace_class_plus,
      units_replace_class_empty, units_toLowerCase. }
  split; [exact Heq|]. split; [|reflexivity].
  rewrite Heq. unfold SlugSpec.slug_spec, SlugSpec.truncate.
  rewrite length_string_of_units, length_firstn. lia.
Qed.

(* ===================================================================== *)
(** * Further properties of the storage                                   *)
(* ===================================================================== *)

Section JsMapMore.

Context {V : Type}.
Implicit Types (m : JsMap.t V) (k : string) (v : V).

Lemma JsMap_get_None m k : JsMap.get k m = None <-> ~ In k (map fst m).
Proof.
  induction m as [|[k' v'] m IH]; simpl.
  - tauto.
  - destruct (String.eqb k' k) eqn:E.
    + apply String.eqb_eq in E. split; [discriminate | tauto].
    + apply String.eqb_neq in E. rewrite IH. tauto.
Qed.

Lemma JsMap_get_entry m k v : JsMap.get k m = Some v -> In (k, v) m.
Proof.
  induction m as [|[k' v'] m IH]; simpl; [discriminate|].
  destruct (String.eqb k' k) eqn:E; intros H.
  - apply String.eqb_eq in E. injection H as ->. subst. now left.
  - right. auto.
Qed.

(** [set] on a new key appends; on a key that is there it replaces the
    value in place. *)
Lemma JsMap_set_fresh m k v :
  JsMap.get k m = None -> JsMap.set k v m = (m ++ [(k, v)])%list.
Proof.
  induction m as [|[k' v'] m IH]; simpl; [reflexivity|].
  destruct (String.eqb k' k); [discriminate|].
  intros H. now rewrite IH.
Qed.

Lemma JsMap_set_present m k v old :
  JsMap.get k m = Some old ->
  exists m1 m2,
    m = (m1 ++ (k, old) :: m2)%list
    /\ JsMap.set k v m = (m1 ++ (k, v) :: m2)%list
    /\ ~ In k (map fst m1).
Proof.
  induction m as [|[k' v'] m IH]; simpl; [discriminate|].
  destruct (String.eqb k' k) eqn:E; intros H.
  - apply String.eqb_eq in E. injection H as ->. subst k'.
    exists [], m. simpl. tauto.
  - apply String.eqb_neq in E.
    destruct (IH H) as [m1 [m2 [Hm [Hset Hnot]]]].
    exists ((k', v') :: m1), m2. simpl. rewrite Hset.
    split; [f_equal; exact Hm|]. split; [reflexivity|].
    intros [Hk | Hin]; [congruence | contradiction].
Qed.

Lemma JsMap_delete_present m k old :
  JsMap.get k m = Some old ->
  exists m1 m2,
    m = (m1 ++ (k, old) :: m2)%list
    /\ JsMap.delete k m = (true, (m1 ++ m2)%list)
    /\ ~ In k (map fst m1).
Proof.
  induction m as [|[k' v'] m IH]; simpl; [discriminate|].
  destruct (String.eqb k' k) eqn:E; intros H.
  - apply String.eqb_eq in E. injection H as ->. subst k'.
    exists [], m. simpl. tauto.
  - apply String.eqb_neq in E.
    destruct (IH H) as [m1 [m2 [Hm [Hdel Hnot]]]].
    exists ((k', v') :: m1), m2. rewrite Hdel. simpl.
    split; [f_equal; exact Hm|]. split; [reflexivity|].
    intros [Hk | Hin]; [congruence | contradiction].
Qed.

Lemma JsMap_set_keys m k v :
  map fst (JsMap.set k v m)
  = match JsMap.get k m with
    | Some _ => map fst m
    | None => (map fst m ++ [k])%list
    end.
Proof.
  induction m as [|[k' v'] m IH]; simpl; [reflexivity|].
  destruct (String.eqb k' k) eqn:E; simpl; [reflexivity|].
  rewrite IH. now destruct (JsMap.get k m).
Qed.

Lemma JsMap_set_keys_unique m k v :
  keys_unique m -> keys_unique (JsMap.set k v m).
Proof.
  unfold keys_unique. intros Hm. rewrite JsMap_set_keys.
  destruct (JsMap.get k m) eqn:Hget; [assumption|].
  apply JsMap_get_None in Hget.
  apply NoDup_app; [assumption | repeat constructor; auto |].
  intros x Hx [<- | []]. contradiction.
Qed.

Lemma JsMap_delete_other m k k' :
  k' <> k -> JsMap.get k' (snd (JsMap.delete k m)) = JsMap.get k' m.
Proof.
  intros Hne. induction m as [|[k0 v0] m IH]; simpl; [reflexivity|].
  destruct (String.eqb k0 k) eqn:E; simpl.
  - apply String.eqb_eq in E. subst k0.
    destruct (String.eqb k k') eqn:E'; [|reflexivity].
    apply String.eqb_eq in E'. congruence.
  - destruct (JsMap.delete k m) as [b m'] eqn:Hd. simpl in *.
    now rewrite IH.
Qed.

Lemma JsMap_delete_gone m k :
  keys_unique m -> JsMap.get k (snd (JsMap.delete k m)) = None.
Proof.
  unfold keys_unique.
  induction m as [|[k0 v0] m IH]; simpl; intros Hm; [reflexivity|].
  inversion Hm as [|x l Hnotin Hnodup]; subst.
  destruct (String.eqb k0 k) eqn:E; simpl.
  - apply String.eqb_eq in E. subst k0. now apply JsMap_get_None.
  - destruct (JsMap.delete k m) as [b m'] eqn:Hd. simpl in *.
    rewrite E. auto.
Qed.

Lemma JsMap_delete_keys_unique m k :
  keys_unique m -> keys_unique (snd (JsMap.delete k m)).
Proof.
  unfold keys_unique.
  induction m as [|[k0 v0] m IH]; simpl; intros Hm; [constructor|].
  inversion Hm as [|x l Hnotin Hnodup]; subst.
  destruct (String.eqb k0 k) eqn:E; simpl; [assumption|].
  destruct (JsMap.delete k m) as [b m'] eqn:Hd. simpl in *.
  constructor; [|auto].
  intros Hin. apply Hnotin.
  destruct (in_dec string_dec k0 (map fst m)) as [Hyes|Hno]; [assumption|].
  exfalso. apply JsMap_get_None in Hno.
  assert (Hk : k0 <> k) by now apply String.eqb_neq.
  pose proof (JsMap_delete_other m k k0 Hk) as Hsame.
  rewrite Hd in Hsame. simpl in Hsame. rewrite Hno in Hsame.
  apply JsMap_get_None in Hsame. contradiction.
Qed.

Lemma JsMap_delete_incl m k :
  incl (snd (JsMap.delete k m)) m.
Proof.
  induction m as [|[k0 v0] m IH]; simpl; [apply incl_refl|].
  destruct (String.eqb k0 k); simpl.
  - apply incl_tl, incl_refl.
  - destruct (JsMap.delete k m) as [b m'] eqn:Hd. simpl in *.
    intros x [<- | Hx]; [now left | right; auto].
Qed.

End JsMapMore.

(** ** The invariant of the in-memory store *)

Lemma filed_by_id_set {V} (id : V -> option string) (m : JsMap.t V) k v :
  filed_by_id id m -> id v = Some k -> filed_by_id id (JsMap.set k v m).
Proof.
  unfold filed_by_id. intros Hm Hv.
  induction m as [|[k' v'] m IH]; simpl.
  - repeat constructor. exact Hv.
  - inversion Hm as [|x l Hx Hl]; subst.
    destruct (String.eqb k' k) eqn:E.
    + apply String.eqb_eq in E. subst k'. constructor; assumption.
    + constructor; auto.
Qed.

Lemma filed_by_id_get {V} (id : V -> option string) (m : JsMap.t V) k v :
  filed_by_id id m -> JsMap.get k m = Some v -> id v = Some k.
Proof.
  unfold filed_by_id. intros Hm Hget.
  apply JsMap_get_entry in Hget.
  rewrite Forall_forall in Hm. exact (Hm _ Hget).
Qed.

Lemma filed_by_id_delete {V} (id : V -> option string) (m : JsMap.t V) k :
  filed_by_id id m -> filed_by_id id (snd (JsMap.delete k m)).
Proof.
  unfold filed_by_id. rewrite !Forall_forall. intros Hm x Hx.
  apply Hm. now apply (JsMap_delete_incl m k).
Qed.

Lemma well_formed_new : well_formed MemStorage.new.
Proof. repeat constructor. Qed.

Lemma write_well_formed st op : well_formed st -> well_formed (write st op).
Proof.
  intros [[Htk Hti] [Huk Hui] [Hnk Hni]].
  destruct op as [now id tenant | now id plan | now id user | now id note
                 | now id tenantId updates | id tenantId]; simpl.
  - constructor; simpl; auto. split.
    + now apply JsMap_set_keys_unique.
    + now apply filed_by_id_set.
  - unfold MemStorage.updateTenantPlan.
    destruct (JsMap.get id (MemStorage.tenants st)) as [tenant|] eqn:Hget;
      simpl; [|now constructor].
    constructor; simpl; auto. split.
    + now apply JsMap_set_keys_unique.
    + apply filed_by_id_set; [assumption|]. simpl.
      exact (filed_by_id_get _ _ _ _ Hti Hget).
  - constructor; simpl; auto. split.
    + now apply JsMap_set_keys_unique.
    + now apply filed_by_id_set.
  - constructor; simpl; auto. split.
    + now apply JsMap_set_keys_unique.
    + now apply filed_by_id_set.
  - unfold MemStorage.updateNote.
    destruct (JsMap.get id (MemStorage.notes st)) as [note|] eqn:Hget;
      simpl; [|now constructor].
    destruct (String.eqb (Note.tenantId note) tenantId); simpl;
      [|now constructor].
    constructor; simpl; auto. split.
    + now apply JsMap_set_keys_unique.
    + apply filed_by_id_set; [assumption|]. simpl.
      exact (filed_by_id_get _ _ _ _ Hni Hget).
  - unfold MemStorage.deleteNote.
    destruct (JsMap.get id (MemStorage.notes st)) as [note|] eqn:Hget;
      simpl; [|now constructor].
    destruct (String.eqb (Note.tenantId note) tenantId); simpl;
      [|now constructor].
    pose proof (JsMap_delete_keys_unique (MemStorage.notes st) id Hnk) as Hk.
    pose proof (filed_by_id_delete Note._id (MemStorage.notes st) id Hni)
      as Hi.
    destruct (JsMap.delete id (MemStorage.notes st)) as [b m'].
    constructor; simpl in *; auto.
Qed.

(** X1.  Whatever sequence of [createTenant], [updateTenantPlan],
    [createUser], [createNote], [updateNote] and [deleteNote] is run on a
    [new MemStorage()], whatever ids [nanoid()] hands out, each of the
    three maps holds every key once and files every record under its own
    [_id]. *)
Theorem reachable_store_well_formed (ops : list Write) :
  well_formed (fold_left write ops MemStorage.new).
Proof.
  assert (H : forall st, well_formed st -> well_formed (fold_left write ops st)).
  { induction ops as [|op ops IH]; simpl; intros st Hst; [assumption|].
    apply IH. now apply write_well_formed. }
  apply H, well_formed_new.
Qed.

(** ** Counting and listing notes across writes *)

Lemma countNotesByTenant_filter st T :
  MemStorage.countNotesByTenant st T
  = List.length (filter (of_tenant T) (JsMap.values (MemStorage.notes st))).
Proof.
  unfold MemStorage.countNotesByTenant.
  now rewrite countNotesByTenant_loop_filter.
Qed.

Lemma values_app {V} (m1 m2 : JsMap.t V) :
  JsMap.values (m1 ++ m2)%list = (JsMap.values m1 ++ JsMap.values m2)%list.
Proof. apply map_app. Qed.

Lemma getNote_get st id T note :
  MemStorage.getNote st id T = Some note <->
  JsMap.get id (MemStorage.notes st) = Some note /\ Note.tenantId note = T.
Proof.
  unfold MemStorage.getNote.
  destruct (JsMap.get id (MemStorage.notes st)) as [x|]; [|split; [discriminate | intros [H _]; discriminate]].
  destruct (String.eqb (Note.tenantId x) T) eqn:E; simpl.
  - apply String.eqb_eq in E. split.
    + intros [= <-]. auto.
    + intros [[= <-] _]. reflexivity.
  - apply String.eqb_neq in E. split; [discriminate|].
    intros [[= <-] Hten]. contradiction.
Qed.

Lemma createNote_fresh_list now id st noteData T :
  JsMap.get id (MemStorage.notes st) = None ->
  filter (of_tenant T)
    (JsMap.values
       (MemStorage.notes (snd (MemStorage.createNote now id st noteData))))
  = (filter (of_tenant T) (JsMap.values (MemStorage.notes st))
     ++ (if String.eqb (InsertNote.tenantId noteData) T
         then [fst (MemStorage.createNote now id st noteData)] else []))%list.
Proof.
  intros Hfresh. simpl.
  rewrite JsMap_set_fresh by assumption.
  rewrite values_app, filter_app. simpl. unfold of_tenant at 2. simpl.
  now destruct (String.eqb (InsertNote.tenantId noteData) T).
Qed.

(** X2.  [createNote] under an id that is not in use adds exactly the new
    note: the tenant of the note lists it last, after the notes it had,
    and counts one more; every other tenant lists and counts what it did;
    notes stored under other ids are read as before. *)
Theorem createNote_fresh_id
  (now : Date) (id : string) (st : MemStorage.t) (noteData : InsertNote.t)
  (T : string) :
  JsMap.get id (MemStorage.notes st) = None ->
  let note := fst (MemStorage.createNote now id st noteData) in
  let st' := snd (MemStorage.createNote now id st noteData) in
  MemStorage.getNotesByTenant st' T
  = (if String.eqb (InsertNote.tenantId noteData) T
     then MemStorage.getNotesByTenant st T ++ [note]
     else MemStorage.getNotesByTenant st T)%list
  /\ MemStorage.countNotesByTenant st' T
     = (if String.eqb (InsertNote.tenantId noteData) T
        then S (MemStorage.countNotesByTenant st T)
        else MemStorage.countNotesByTenant st T)
  /\ (forall id', id' <> id ->
        MemStorage.getNote st' id' T = MemStorage.getNote st id' T).
Proof.
  intros Hfresh note st'. subst note st'.
  pose proof (createNote_fresh_list now id st noteData T Hfresh) as Hlist.
  rewrite !getNotesByTenant_filter, !countNotesByTenant_filter, Hlist.
  split; [|split].
  - destruct (String.eqb (InsertNote.tenantId noteData) T);
      [reflexivity | apply app_nil_r].
  - rewrite length_app.
    destruct (String.eqb (InsertNote.tenantId noteData) T); simpl; lia.
  - intros id' Hne. unfold MemStorage.getNote. simpl.
    now rewrite JsMap_get_set_other.
Qed.

Lemma createNote_fresh_id_witness :
  MemStorage.countNotesByTenant
    (snd (MemStorage.createNote 5%Z "n9" Sample.two_notes
            (InsertNote.mk "Minutes" "Agenda" "t-acme" "u-1"))) "t-acme"
  = 3.
Proof.
  destruct (createNote_fresh_id 5%Z "n9" Sample.two_notes
              (InsertNote.mk "Minutes" "Agenda" "t-acme" "u-1") "t-acme"
              eq_refl) as [_ [Hcount _]].
  rewrite Hcount. reflexivity.
Defined.

(** X3.  Whatever id [nanoid()] returns, also one already in use,
    [createNote] raises the count of the note's tenant by at most one and
    raises no other tenant's count. *)
Theorem createNote_count_bound
  (now : Date) (id : string) (st : MemStorage.t) (noteData : InsertNote.t)
  (T : string) :
  MemStorage.countNotesByTenant
    (snd (MemStorage.createNote now id st noteData)) T
  <= MemStorage.countNotesByTenant st T
     + (if String.eqb (InsertNote.tenantId noteData) T then 1 else 0).
Proof.
  destruct (JsMap.get id (MemStorage.notes st)) as [old|] eqn:Hget.
  - rewrite !countNotesByTenant_filter. simpl.
    destruct (JsMap_set_present (MemStorage.notes st) id
                (Note.mk (Some id) (InsertNote.title noteData)
                   (InsertNote.body noteData) (InsertNote.tenantId noteData)
                   (InsertNote.authorId noteData) (Some now) (Some now))
                old Hget) as [m1 [m2 [Hm [Hset _]]]].
    rewrite Hset, Hm, !values_app, !filter_app, !length_app. simpl.
    cbv [of_tenant]. cbn [Note.tenantId].
    destruct (String.eqb (InsertNote.tenantId noteData) T),
      (String.eqb (Note.tenantId old) T); simpl; lia.
  - rewrite !countNotesByTenant_filter.
    rewrite (createNote_fresh_list now id st noteData T Hget), length_app.
    destruct (String.eqb (InsertNote.tenantId noteData) T); simpl; lia.
Qed.

(** X4.  An [updateNote] on a note the tenant owns returns the note with
    its id, tenant, author and creation time as they were, the fields
    given in [updates] replaced, the others kept, and [updatedAt] set to
    the clock; the stored note is the returned one; no other note
    changes, no tenant's count changes and no other tenant's list
    changes. *)
Theorem updateNote_own_note
  (now : Date) (st : MemStorage.t) (id T : string) (updates : UpdateNote.t)
  (note : Note.t) :
  MemStorage.getNote st id T = Some note ->
  exists updated st',
    MemStorage.updateNote now st id T updates = (Some updated, st')
    /\ (Note._id updated = Note._id note
        /\ Note.tenantId updated = T
        /\ Note.authorId updated = Note.authorId note
        /\ Note.createdAt updated = Note.createdAt note
        /\ Note.updatedAt updated = Some now)
    /\ Note.title updated
       = match UpdateNote.title updates with
         | Some title => title
         | None => Note.title note
         end
    /\ Note.body updated
       = match UpdateNote.body updates with
         | Some body => body
         | None => Note.body note
         end
    /\ MemStorage.getNote st' id T = Some updated
    /\ (forall id' T', id' <> id ->
          MemStorage.getNote st' id' T' = MemStorage.getNote st id' T')
    /\ (forall T',
          MemStorage.countNotesByTenant st' T'
          = MemStorage.countNotesByTenant st T')
    /\ (forall T', T' <> T ->
          MemStorage.getNotesByTenant st' T'
          = MemStorage.getNotesByTenant st T').
Proof.
  intros Hown. apply getNote_get in Hown as [Hget Hten].
  unfold MemStorage.updateNote. rewrite Hget.
  assert (E : String.eqb (Note.tenantId note) T = true)
    by now apply String.eqb_eq.
  rewrite E. simpl.
  eexists. eexists. split; [reflexivity|].
  split; [simpl; auto|]. split; [reflexivity|]. split; [reflexivity|].
  destruct (JsMap_set_present (MemStorage.notes st) id
              (Note.mk (Note._id note)
                 (MemStorage.spread (Note.title note) (UpdateNote.title updates))
                 (MemStorage.spread (Note.body note) (UpdateNote.body updates))
                 (Note.tenantId note) (Note.authorId note)
                 (Note.createdAt note) (Some now))
              note Hget) as [m1 [m2 [Hm [Hset _]]]].
  split; [|split; [|split]].
  - unfold MemStorage.getNote. simpl. rewrite JsMap_get_set_same. simpl.
    now rewrite E.
  - intros id' T' Hne. unfold MemStorage.getNote. simpl.
    now rewrite JsMap_get_set_other.
  - intros T'. rewrite !countNotesByTenant_filter. simpl.
    rewrite Hset, Hm, !values_app, !filter_app, !length_app. simpl.
    cbv [of_tenant]. cbn [Note.tenantId].
    now destruct (String.eqb (Note.tenantId note) T').
  - intros T' Hne. rewrite !getNotesByTenant_filter. simpl.
    rewrite Hset, Hm, !values_app, !filter_app. simpl.
    cbv [of_tenant]. cbn [Note.tenantId].
    destruct (String.eqb (Note.tenantId note) T') eqn:E'; [|reflexivity].
    apply String.eqb_eq in E'. congruence.
Qed.

Lemma updateNote_own_note_witness :
  exists updated st',
    MemStorage.updateNote 8%Z Sample.two_notes "n1" "t-acme"
      (UpdateNote.mk (Some "Minutes, final") None)
    = (Some updated, st')
    /\ Note.title updated = "Minutes, final"
    /\ Note.body updated = "body".
Proof.
  destruct (updateNote_own_note 8%Z Sample.two_notes "n1" "t-acme"
              (UpdateNote.mk (Some "Minutes, final") None)
              (snd (Sample.note "n1" "t-acme")) eq_refl)
    as [updated [st' [Hrun [_ [Htitle [Hbody _]]]]]].
  exists updated, st'. split; [exact Hrun|]. split; assumption.
Defined.

(** X5.  A [deleteNote] on a note the tenant owns, in a store that holds
    each key once, answers [true]; afterwards the id is gone for every
    tenant, the other notes are read as before, the owner counts one
    note fewer and every other tenant counts what it did. *)
Theorem deleteNote_own_note
  (st : MemStorage.t) (id T : string) (note : Note.t) :
  keys_unique (MemStorage.notes st) ->
  MemStorage.getNote st id T = Some note ->
  let st' := snd (MemStorage.deleteNote st id T) in
  fst (MemStorage.deleteNote st id T) = true
  /\ (forall T', MemStorage.getNote st' id T' = None)
  /\ (forall id' T', id' <> id ->
        MemStorage.getNote st' id' T' = MemStorage.getNote st id' T')
  /\ S (MemStorage.countNotesByTenant st' T)
     = MemStorage.countNotesByTenant st T
  /\ (forall T', T' <> T ->
        MemStorage.getNotesByTenant st' T'
        = MemStorage.getNotesByTenant st T').
Proof.
  intros Huniq Hown st'. apply getNote_get in Hown as [Hget Hten].
  assert (E : String.eqb (Note.tenantId note) T = true)
    by now apply String.eqb_eq.
  pose proof (JsMap_delete_gone (MemStorage.notes st) id Huniq) as Hgone.
  pose proof (fun id' => JsMap_delete_other (MemStorage.notes st) id id')
    as Hother.
  destruct (JsMap_delete_present (MemStorage.notes st) id note Hget)
    as [m1 [m2 [Hm [Hdel _]]]].
  subst st'. unfold MemStorage.deleteNote. rewrite Hget, E. simpl.
  rewrite Hdel in *. simpl in *.
  split; [reflexivity|]. split; [|split; [|split]].
  - intros T'. unfold MemStorage.getNote. simpl. now rewrite Hgone.
  - intros id' T' Hne. unfold MemStorage.getNote. simpl.
    now rewrite Hother.
  - rewrite !countNotesByTenant_filter. simpl.
    rewrite Hm, !values_app, !filter_app, !length_app. simpl.
    cbv [of_tenant]. rewrite E. simpl. lia.
  - intros T' Hne. rewrite !getNotesByTenant_filter. simpl.
    rewrite Hm, !values_app, !filter_app. simpl.
    cbv [of_tenant].
    destruct (String.eqb (Note.tenantId note) T') eqn:E'; [|reflexivity].
    apply String.eqb_eq in E'. congruence.
Qed.

Lemma deleteNote_own_note_witness :
  fst (MemStorage.deleteNote Sample.two_notes "n1" "t-acme") = true
  /\ MemStorage.getNote
       (snd (MemStorage.deleteNote Sample.two_notes "n1" "t-acme"))
       "n1" "t-acme" = None.
Proof.
  assert (Huniq : keys_unique (MemStorage.notes Sample.two_notes)).
  { unfold keys_unique. simpl.
    repeat constructor; simpl; intuition discriminate. }
  destruct (deleteNote_own_note Sample.two_notes "n1" "t-acme"
              (snd (Sample.note "n1" "t-acme")) Huniq eq_refl)
    as [Htrue [Hgone _]].
  split; [exact Htrue | apply Hgone].
Defined.

(* ===================================================================== *)
(** * Further properties of the routes                                    *)
(* ===================================================================== *)

Ltac run_route :=
  cbv [Routes.login Routes.login_try Routes.signup Routes.signup_try
       Routes.get_notes Routes.get_notes_try Routes.get_note
       Routes.get_note_try Routes.post_notes Routes.post_notes_try
       Routes.put_note Routes.put_note_try Routes.delete_note
       Routes.delete_note_try Routes.upgrade Routes.upgrade_try Routes.issue
       SeedRoute.seed SeedRoute.seed_try
       try_catch bind ret lift call throw respond query command
       IStorage.getTenant IStorage.getTenantBySlug IStorage.createTenant
       IStorage.updateTenantPlan IStorage.getUserByEmail IStorage.createUser
       IStorage.getNotesByTenant IStorage.getNote IStorage.createNote
       IStorage.updateNote IStorage.deleteNote IStorage.countNotesByTenant
       storage calls].

(** X6.  [PUT] and [DELETE /api/notes/:id] on an id that [getNote] denies
    to the caller, be it absent or another tenant's, leave the storage as
    it was; [DELETE] answers 404, and so does [PUT] when its body passes
    the schema. *)
Theorem put_delete_denied
  (now : Date) (user : AuthUser.t) (id : string) (body : ReqBody) (w : World) :
  MemStorage.getNote (storage w) id (AuthUser.tenantId user) = None ->
  storage (snd (Routes.put_note now user id body w)) = storage w
  /\ (forall updates,
        updateNoteSchema_parse body = Value updates ->
        fst (Routes.put_note now user id body w)
        = res 404 (Message "Note not found"))
  /\ storage (snd (Routes.delete_note user id w)) = storage w
  /\ fst (Routes.delete_note user id w) = res 404 (Message "Note not found").
Proof.
  intros Hdenied. destruct w as [st log]. simpl in Hdenied.
  assert (Hup : forall updates,
            MemStorage.updateNote now st id (AuthUser.tenantId user) updates
            = (None, st)).
  { intros updates. unfold MemStorage.getNote in Hdenied.
    unfold MemStorage.updateNote.
    destruct (JsMap.get id (MemStorage.notes st)) as [note|];
      [|reflexivity].
    destruct (negb (String.eqb (Note.tenantId note) (AuthUser.tenantId user)));
      [reflexivity | discriminate]. }
  assert (Hdel : MemStorage.deleteNote st id (AuthUser.tenantId user)
                 = (false, st)).
  { unfold MemStorage.getNote in Hdenied. unfold MemStorage.deleteNote.
    destruct (JsMap.get id (MemStorage.notes st)) as [note|];
      [|reflexivity].
    destruct (negb (String.eqb (Note.tenantId note) (AuthUser.tenantId user)));
      [reflexivity | discriminate]. }
  split; [|split; [|split]].
  - run_route. destruct (updateNoteSchema_parse body) as [updates|e];
      [|reflexivity].
    rewrite Hup. reflexivity.
  - intros updates Hparse. run_route. rewrite Hparse, Hup. reflexivity.
  - run_route. rewrite Hdel. reflexivity.
  - run_route. rewrite Hdel. reflexivity.
Qed.

Lemma put_delete_denied_witness :
  fst (Routes.put_note 8%Z Sample.globex_admin "n1" Sample.note_body
         (Sample.world Sample.two_notes))
  = res 404 (Message "Note not found")
  /\ storage (snd (Routes.delete_note Sample.globex_admin "n1"
                     (Sample.world Sample.two_notes)))
     = Sample.two_notes.
Proof.
  destruct (put_delete_denied 8%Z Sample.globex_admin "n1" Sample.note_body
              (Sample.world Sample.two_notes) eq_refl)
    as [_ [Hput [Hdel _]]].
  split; [|exact Hdel].
  apply (Hput (UpdateNote.mk (Some "Minutes") (Some "Agenda"))).
  reflexivity.
Defined.



(** ** Looking tenants and users up *)

Lemma find_slug_None l s :
  MemStorage.find_slug l s = None <-> Forall (fun t => Tenant.slug t <> s) l.
Proof.
  induction l as [|t l IH]; simpl.
  - split; [constructor | reflexivity].
  - destruct (String.eqb (Tenant.slug t) s) eqn:E.
    + apply String.eqb_eq in E. split; [discriminate|].
      intros H. inversion H; subst. contradiction.
    + apply String.eqb_neq in E. rewrite IH. split.
      * now constructor.
      * intros H. now inversion H.
Qed.

Lemma find_email_None l e :
  MemStorage.find_email l e = None <-> Forall (fun u => User.email u <> e) l.
Proof.
  induction l as [|u l IH]; simpl.
  - split; [constructor | reflexivity].
  - destruct (String.eqb (User.email u) e) eqn:E.
    + apply String.eqb_eq in E. split; [discriminate|].
      intros H. inversion H; subst. contradiction.
    + apply String.eqb_neq in E. rewrite IH. split.
      * now constructor.
      * intros H. now inversion H.
Qed.

Lemma find_slug_first l1 t l2 :
  Forall (fun x => Tenant.slug x <> Tenant.slug t) l1 ->
  MemStorage.find_slug (l1 ++ t :: l2) (Tenant.slug t) = Some t.
Proof.
  induction l1 as [|x l1 IH]; simpl; intros H.
  - now rewrite String.eqb_refl.
  - inversion H as [|y l Hx Hl]; subst.
    apply String.eqb_neq in Hx. rewrite Hx. auto.
Qed.

Lemma find_email_first l1 u l2 :
  Forall (fun x => User.email x <> User.email u) l1 ->
  MemStorage.find_email (l1 ++ u :: l2) (User.email u) = Some u.
Proof.
  induction l1 as [|x l1 IH]; simpl; intros H.
  - now rewrite String.eqb_refl.
  - inversion H as [|y l Hx Hl]; subst.
    apply String.eqb_neq in Hx. rewrite Hx. auto.
Qed.

Lemma find_slug_Some l s t :
  MemStorage.find_slug l s = Some t ->
  Tenant.slug t = s
  /\ exists l1 l2, l = (l1 ++ t :: l2)%list
                   /\ Forall (fun x => Tenant.slug x <> s) l1.
Proof.
  induction l as [|x l IH]; simpl; [discriminate|].
  destruct (String.eqb (Tenant.slug x) s) eqn:E.
  - intros [= ->]. apply String.eqb_eq in E. split; [assumption|].
    exists [], l. split; [reflexivity | constructor].
  - intros H. destruct (IH H) as [Hs [l1 [l2 [Hl Hall]]]].
    split; [assumption|]. exists (x :: l1), l2. split.
    + simpl. now rewrite Hl.
    + constructor; [now apply String.eqb_neq | assumption].
Qed.

Lemma find_email_Some l e u :
  MemStorage.find_email l e = Some u ->
  User.email u = e
  /\ exists l1 l2, l = (l1 ++ u :: l2)%list
                   /\ Forall (fun x => User.email x <> e) l1.
Proof.
  induction l as [|x l IH]; simpl; [discriminate|].
  destruct (String.eqb (User.email x) e) eqn:E.
  - intros [= ->]. apply String.eqb_eq in E. split; [assumption|].
    exists [], l. split; [reflexivity | constructor].
  - intros H. destruct (IH H) as [Hs [l1 [l2 [Hl Hall]]]].
    split; [assumption|]. exists (x :: l1), l2. split.
    + simpl. now rewrite Hl.
    + constructor; [now apply String.eqb_neq | assumption].
Qed.

(** X8.  [getTenantBySlug] and [getUserByEmail] answer with the oldest
    record that has exactly the slug, or the email, asked for, comparing
    case-sensitively; they answer [null] only when no record has it. *)
Theorem lookup_first_match (st : MemStorage.t) (key : string) :
  match MemStorage.getTenantBySlug st key with
  | Some t =>
      Tenant.slug t = key
      /\ exists older newer,
           JsMap.values (MemStorage.tenants st) = (older ++ t :: newer)%list
           /\ Forall (fun x => Tenant.slug x <> key) older
  | None =>
      Forall (fun x => Tenant.slug x <> key)
        (JsMap.values (MemStorage.tenants st))
  end
  /\ match MemStorage.getUserByEmail st key with
     | Some u =>
         User.email u = key
         /\ exists older newer,
              JsMap.values (MemStorage.users st) = (older ++ u :: newer)%list
              /\ Forall (fun x => User.email x <> key) older
     | None =>
         Forall (fun x => User.email x <> key)
           (JsMap.values (MemStorage.users st))
     end.
Proof.
  unfold MemStorage.getTenantBySlug, MemStorage.getUserByEmail. split.
  - destruct (MemStorage.find_slug _ key) as [t|] eqn:H.
    + now apply find_slug_Some.
    + now apply find_slug_None.
  - destruct (MemStorage.find_email _ key) as [u|] eqn:H.
    + now apply find_email_Some.
    + now apply find_email_None.
Qed.

(** ** Upgrading *)

(** X9.  An upgrade by an Admin on the slug of the own tenant answers, if
    the tenant is stored, 200 with the tenant on plan pro, its id, name,
    slug and creation time unchanged; afterwards [getTenant] returns that
    tenant, tenants under other ids, the users and the notes are as
    before.  If the tenant is not stored the answer is 404 and the
    storage is as before. *)
Theorem upgrade_own_tenant
  (now : Date) (user : AuthUser.t) (w : World) :
  AuthUser.role user = Admin ->
  let slug := TenantInfo.slug (AuthUser.tenant user) in
  let id := AuthUser.tenantId user in
  let answer := Routes.upgrade now (Some user) slug w in
  match MemStorage.getTenant (storage w) id with
  | Some tenant =>
      exists updated,
        fst answer
        = res 200
            (JsonUpgrade "Tenant upgraded to Pro plan successfully" updated)
        /\ Tenant.plan updated = pro
        /\ (Tenant._id updated = Tenant._id tenant
            /\ Tenant.name updated = Tenant.name tenant
            /\ Tenant.slug updated = Tenant.slug tenant
            /\ Tenant.createdAt updated = Tenant.createdAt tenant
            /\ Tenant.updatedAt updated = Some now)
        /\ MemStorage.getTenant (storage (snd answer)) id = Some updated
        /\ (forall id', id' <> id ->
              MemStorage.getTenant (storage (snd answer)) id'
              = MemStorage.getTenant (storage w) id')
        /\ MemStorage.users (storage (snd answer))
           = MemStorage.users (storage w)
        /\ MemStorage.notes (storage (snd answer))
           = MemStorage.notes (storage w)
  | None =>
      fst answer = res 404 (Message "Tenant not found")
      /\ storage (snd answer) = storage w
  end.
Proof.
  intros Hadmin slug id answer. subst answer slug id.
  destruct w as [st log]. unfold Routes.upgrade, requireAdmin.
  rewrite Hadmin. simpl.
  unfold Routes.upgrade_try, try_catch. rewrite String.eqb_refl. simpl.
  run_route. unfold MemStorage.updateTenantPlan, MemStorage.getTenant.
  destruct (JsMap.get (AuthUser.tenantId user) (MemStorage.tenants st))
    as [tenant|] eqn:Hget; simpl.
  - eexists. split; [reflexivity|]. split; [reflexivity|].
    split; [simpl; auto|]. split; [apply JsMap_get_set_same|].
    split; [|split; reflexivity].
    intros id' Hne. now apply JsMap_get_set_other.
  - split; reflexivity.
Qed.

Lemma upgrade_own_tenant_witness :
  exists updated,
    fst (Routes.upgrade 9%Z (Some Sample.acme_admin) "acme"
           (Sample.world Sample.two_notes))
    = res 200 (JsonUpgrade "Tenant upgraded to Pro plan successfully" updated)
    /\ Tenant.plan updated = pro.
Proof.
  pose proof (upgrade_own_tenant 9%Z Sample.acme_admin
                (Sample.world Sample.two_notes) eq_refl) as H.
  simpl in H. destruct H as [updated [Hres [Hplan _]]].
  exists updated. split; assumption.
Defined.

(** ** Signing up and logging in *)

Section SignupLogin.

Variable isEmail : string -> bool.
Variable bcrypt_compare : string -> string -> bool.
Variable jwt_sign : JwtClaims.t -> string -> string.

Lemma signup_runs JWT_SECRET env body email password organizationName st log :
  signupSchema_parse isEmail body
  = Value (email, password, organizationName) ->
  MemStorage.getUserByEmail st email = None ->
  MemStorage.getTenantBySlug st (slug organizationName) = None ->
  Routes.signup isEmail jwt_sign JWT_SECRET env body (mkWorld st log)
  = (match truthy JWT_SECRET with
     | Some jwtSecret =>
         res 201
           (JsonAuth (jwt_sign (claims (signup_user env email)) jwtSecret)
              (payload (signup_user env email)
                 (signup_tenant env organizationName)))
     | None => res 500 (Message "Internal server error")
     end,
     mkWorld (signup_store env email organizationName st)
       (log
        ++ [call_getUserByEmail email;
            call_getTenantBySlug (slug organizationName);
            call_createTenant
              (InsertTenant.mk organizationName (slug organizationName) free);
            call_createUser
              (InsertUser.mk email (Routes.hash env) Admin
                 (Routes.tenant_id env))])%list).
Proof.
  intros Hparse Huser Hslug. run_route. rewrite Hparse. simpl.
  rewrite Huser. simpl. rewrite Hslug. simpl.
  destruct (truthy JWT_SECRET); simpl;
    repeat rewrite <- app_assoc; reflexivity.
Qed.

Lemma signup_store_user env email organizationName st :
  MemStorage.getUserByEmail st email = None ->
  MemStorage.getUserByEmail (signup_store env email organizationName st) email
  = Some (signup_user env email).
Proof.
  unfold MemStorage.getUserByEmail. simpl. intros Hnone.
  apply find_email_None in Hnone.
  destruct (JsMap.get (Routes.user_id env) (MemStorage.users st))
    as [old|] eqn:Hget.
  - destruct (JsMap_set_present (MemStorage.users st) (Routes.user_id env)
                (signup_user env email) old Hget) as [m1 [m2 [Hm [Hset _]]]].
    rewrite Hset, values_app. simpl.
    apply (find_email_first (JsMap.values m1) (signup_user env email)).
    rewrite Hm, values_app in Hnone. simpl.
    now apply Forall_app in Hnone as [H1 _].
  - rewrite JsMap_set_fresh, values_app by assumption. simpl.
    now apply (find_email_first _ (signup_user env email) []).
Qed.

Lemma signup_store_slug env email organizationName st :
  MemStorage.getTenantBySlug st (slug organizationName) = None ->
  MemStorage.getTenantBySlug (signup_store env email organizationName st)
    (slug organizationName)
  = Some (signup_tenant env organizationName).
Proof.
  unfold MemStorage.getTenantBySlug. simpl. intros Hnone.
  apply find_slug_None in Hnone.
  destruct (JsMap.get (Routes.tenant_id env) (MemStorage.tenants st))
    as [old|] eqn:Hget.
  - destruct (JsMap_set_present (MemStorage.tenants st) (Routes.tenant_id env)
                (signup_tenant env organizationName) old Hget)
      as [m1 [m2 [Hm [Hset _]]]].
    rewrite Hset, values_app. simpl.
    apply (find_slug_first (JsMap.values m1)
             (signup_tenant env organizationName)).
    rewrite Hm, values_app in Hnone. simpl.
    now apply Forall_app in Hnone as [H1 _].
  - rewrite JsMap_set_fresh, values_app by assumption. simpl.
    now apply (find_slug_first _ (signup_tenant env organizationName) []).
Qed.

End SignupLogin.

(** X10.  A signup whose email is already registered, or whose
    organization name gives a slug already taken, is answered 400 and
    creates nothing: the email is checked first. *)
Theorem signup_duplicate_rejected
  (isEmail : string -> bool) (jwt_sign : JwtClaims.t -> string -> string)
  (JWT_SECRET : option string) (env : Routes.SignupEnv) (body : ReqBody)
  (email password organizationName : string) (w : World) :
  signupSchema_parse isEmail body
  = Value (email, password, organizationName) ->
  let answer := Routes.signup isEmail jwt_sign JWT_SECRET env body w in
  (MemStorage.getUserByEmail (storage w) email <> None ->
   fst answer = res 400 (Message "Email already registered")
   /\ storage (snd answer) = storage w)
  /\ (MemStorage.getUserByEmail (storage w) email = None ->
      MemStorage.getTenantBySlug (storage w) (slug organizationName) <> None ->
      fst answer = res 400 (Message "Organization name already taken")
      /\ storage (snd answer) = storage w).
Proof.
  intros Hparse answer. subst answer. destruct w as [st log]. simpl.
  split.
  - intros Huser. run_route. rewrite Hparse. simpl.
    destruct (MemStorage.getUserByEmail st email); [|contradiction].
    split; reflexivity.
  - intros Huser Hslug. run_route. rewrite Hparse. simpl.
    rewrite Huser. simpl.
    destruct (MemStorage.getTenantBySlug st (slug organizationName));
      [|contradiction].
    split; reflexivity.
Qed.

Lemma signup_duplicate_rejected_witness :
  fst (Routes.signup Sample.isEmail Sample.jwt_sign (Some "s3cret")
         Sample.signup_env
         (Some [("email", JString "admin@acme.test");
                ("password", JString "secret1");
                ("organizationName", JString "Initech")])
         (Sample.world Sample.two_notes))
  = res 400 (Message "Email already registered")
  /\ fst (Routes.signup Sample.isEmail Sample.jwt_sign (Some "s3cret")
            Sample.signup_env
            (Some [("email", JString "new@initech.test");
                   ("password", JString "secret1");
                   ("organizationName", JString "ACME")])
            (Sample.world Sample.two_notes))
     = res 400 (Message "Organization name already taken").
Proof.
  destruct (signup_duplicate_rejected Sample.isEmail Sample.jwt_sign
              (Some "s3cret") Sample.signup_env
              (Some [("email", JString "admin@acme.test");
                     ("password", JString "secret1");
                     ("organizationName", JString "Initech")])
              "admin@acme.test" "secret1" "Initech"
              (Sample.world Sample.two_notes) eq_refl) as [Hemail _].
  destruct (signup_duplicate_rejected Sample.isEmail Sample.jwt_sign
              (Some "s3cret") Sample.signup_env
              (Some [("email", JString "new@initech.test");
                     ("password", JString "secret1");
                     ("organizationName", JString "ACME")])
              "new@initech.test" "secret1" "ACME"
              (Sample.world Sample.two_notes) eq_refl) as [_ Hslug].
  split.
  - apply Hemail. simpl. discriminate.
  - apply Hslug; [reflexivity | simpl; discriminate].
Defined.



(** X12.  After a signup that passed its checks, a second signup is
    answered 400: with the same email whatever its organization, and with
    a new email when its organization name has the same slug, so for a
    name that differs only in case, punctuation or spacing. *)
Theorem second_signup_rejected
  (isEmail : string -> bool) (jwt_sign : JwtClaims.t -> string -> string)
  (JWT_SECRET JWT_SECRET' : option string) (env env' : Routes.SignupEnv)
  (body body' : ReqBody)
  (email password organizationName : string)
  (email' password' organizationName' : string) (w : World) :
  signupSchema_parse isEmail body
  = Value (email, password, organizationName) ->
  MemStorage.getUserByEmail (storage w) email = None ->
  MemStorage.getTenantBySlug (storage w) (slug organizationName) = None ->
  signupSchema_parse isEmail body'
  = Value (email', password', organizationName') ->
  let w' := snd (Routes.signup isEmail jwt_sign JWT_SECRET env body w) in
  let second := Routes.signup isEmail jwt_sign JWT_SECRET' env' body' w' in
  (email' = email ->
   fst second = res 400 (Message "Email already registered"))
  /\ (slug organizationName' = slug organizationName ->
      status (fst second) = 400)
  /\ (email' = email \/ slug organizationName' = slug organizationName ->
      storage (snd second) = storage w').
Proof.
  intros Hparse Huser Hslug Hparse' w' second. subst second w'.
  destruct w as [st log]. simpl in Huser, Hslug.
  rewrite (signup_runs isEmail jwt_sign JWT_SECRET env body email
             password organizationName st log Hparse Huser Hslug).
  cbn [fst snd].
  pose proof (signup_store_user env email organizationName st Huser) as Hu.
  pose proof (signup_store_slug env email organizationName st Hslug) as Hs.
  assert (Hemail : email' = email ->
            Routes.signup isEmail jwt_sign JWT_SECRET' env' body'
              (mkWorld (signup_store env email organizationName st)
                 (log
                  ++ [call_getUserByEmail email;
                      call_getTenantBySlug (slug organizationName);
                      call_createTenant
                        (InsertTenant.mk organizationName
                           (slug organizationName) free);
                      call_createUser
                        (InsertUser.mk email (Routes.hash env) Admin
                           (Routes.tenant_id env))])%list)
            = (res 400 (Message "Email already registered"),
               mkWorld (signup_store env email organizationName st)
                 ((log
                   ++ [call_getUserByEmail email;
                       call_getTenantBySlug (slug organizationName);
                       call_createTenant
                         (InsertTenant.mk organizationName
                            (slug organizationName) free);
                       call_createUser
                         (InsertUser.mk email (Routes.hash env) Admin
                            (Routes.tenant_id env))])
                  ++ [call_getUserByEmail email'])%list)).
  { intros ->. run_route. rewrite Hparse'. cbv beta iota. rewrite Hu.
    reflexivity. }
  assert (Hboth : slug organizationName' = slug organizationName ->
            status (fst (Routes.signup isEmail jwt_sign JWT_SECRET' env' body'
              (mkWorld (signup_store env email organizationName st)
                 (log
                  ++ [call_getUserByEmail email;
                      call_getTenantBySlug (slug organizationName);
                      call_createTenant
                        (InsertTenant.mk organizationName
                           (slug organizationName) free);
                      call_createUser
                        (InsertUser.mk email (Routes.hash env) Admin
                           (Routes.tenant_id env))])%list))) = 400
            /\ storage (snd (Routes.signup isEmail jwt_sign JWT_SECRET' env' body'
              (mkWorld (signup_store env email organizationName st)
                 (log
                  ++ [call_getUserByEmail email;
                      call_getTenantBySlug (slug organizationName);
                      call_createTenant
                        (InsertTenant.mk organizationName
                           (slug organizationName) free);
                      call_createUser
                        (InsertUser.mk email (Routes.hash env) Admin
                           (Routes.tenant_id env))])%list)))
               = signup_store env email organizationName st).
  { intros Hsame. run_route. rewrite Hparse'. cbv beta iota.
    destruct (MemStorage.getUserByEmail
                (signup_store env email organizationName st) email');
      [split; reflexivity|].
    cbv beta iota. rewrite Hsame, Hs. split; reflexivity. }
  split; [|split].
  - intros He. now rewrite (Hemail He).
  - intros Hsame. now apply Hboth.
  - intros [He | Hsame].
    + now rewrite (Hemail He).
    + now apply Hboth.
Qed.

Lemma second_signup_rejected_witness :
  slug "INITECH!" = slug "Initech"
  /\ status
       (fst (Routes.signup Sample.isEmail Sample.jwt_sign (Some "s3cret")
               Sample.signup_env
               (Some [("email", JString "other@initech.test");
                      ("password", JString "secret2");
                      ("organizationName", JString "INITECH!")])
               (snd (Routes.signup Sample.isEmail Sample.jwt_sign
                       (Some "s3cret") Sample.signup_env
                       (Sample.signup_body "secret1")
                       (Sample.world Sample.two_notes)))))
     = 400.
Proof.
  split; [reflexivity|].
  destruct (second_signup_rejected Sample.isEmail Sample.jwt_sign
              (Some "s3cret") (Some "s3cret")
              Sample.signup_env Sample.signup_env
              (Sample.signup_body "secret1")
              (Some [("email", JString "other@initech.test");
                     ("password", JString "secret2");
                     ("organizationName", JString "INITECH!")])
              "new@initech.test" "secret1" "Initech"
              "other@initech.test" "secret2" "INITECH!"
              (Sample.world Sample.two_notes)
              eq_refl eq_refl eq_refl eq_refl)
    as [_ [Hslug _]].
  apply Hslug. reflexivity.
Defined.

(** X13.  A login never writes to the storage, whatever it is sent; and
    an unknown email and a wrong password get the very same answer, 401
    "Invalid credentials". *)
Theorem login_reads_only
  (isEmail : string -> bool) (bcrypt_compare : string -> string -> bool)
  (jwt_sign : JwtClaims.t -> string -> string)
  (JWT_SECRET : option string) (body : ReqBody) (w : World) :
  let answer :=
    Routes.login isEmail bcrypt_compare jwt_sign JWT_SECRET body w in
  storage (snd answer) = storage w
  /\ (forall email password,
        loginSchema_parse isEmail body = Value (email, password) ->
        match MemStorage.getUserByEmail (storage w) email with
        | None => True
        | Some user => bcrypt_compare password (User.passwordHash user) = false
        end ->
        fst answer = res 401 (Message "Invalid credentials")).
Proof.
  intros answer. subst answer. destruct w as [st log]. split.
  - run_route.
    destruct (loginSchema_parse isEmail body) as [[email password]|e];
      [|reflexivity].
    destruct (MemStorage.getUserByEmail st email) as [user|];
      [|reflexivity].
    destruct (bcrypt_compare password (User.passwordHash user));
      [|reflexivity].
    cbn [negb].
    destruct (MemStorage.getTenant st (User.tenantId user)); [|reflexivity].
    destruct (truthy JWT_SECRET); reflexivity.
  - intros email password Hparse Hbad. run_route. rewrite Hparse.
    cbv beta iota. cbn [storage] in Hbad.
    destruct (MemStorage.getUserByEmail st email) as [user|];
      [|reflexivity].
    rewrite Hbad. reflexivity.
Qed.

Lemma login_reads_only_witness :
  fst (Routes.login Sample.isEmail Sample.bcrypt_compare Sample.jwt_sign
         (Some "s3cret")
         (Some [("email", JString "admin@acme.test");
                ("password", JString "guess")])
         (Sample.world Sample.two_notes))
  = res 401 (Message "Invalid credentials")
  /\ fst (Routes.login Sample.isEmail Sample.bcrypt_compare Sample.jwt_sign
            (Some "s3cret")
            (Some [("email", JString "nobody@acme.test");
                   ("password", JString "password")])
            (Sample.world Sample.two_notes))
     = res 401 (Message "Invalid credentials").
Proof.
  split.
  - apply (proj2 (login_reads_only Sample.isEmail Sample.bcrypt_compare
                    Sample.jwt_sign (Some "s3cret")
                    (Some [("email", JString "admin@acme.test");
                           ("password", JString "guess")])
                    (Sample.world Sample.two_notes))
             "admin@acme.test" "guess"); reflexivity.
  - apply (proj2 (login_reads_only Sample.isEmail Sample.bcrypt_compare
                    Sample.jwt_sign (Some "s3cret")
                    (Some [("email", JString "nobody@acme.test");
                           ("password", JString "password")])
                    (Sample.world Sample.two_notes))
             "nobody@acme.test" "password"); [reflexivity | exact I].
Defined.

(** X14.  A note created through [POST /api/notes] carries the caller as
    author and the caller's tenant; [GET /api/notes/:id] then returns it
    to any caller of that tenant, and answers 404 to a caller of any
    other tenant. *)
Theorem post_then_get
  (now : Date) (id : string) (user reader : AuthUser.t) (body : ReqBody)
  (w : World) (note : Note.t) :
  fst (Routes.post_notes now id user body w) = res 201 (JsonNote note) ->
  let w' := snd (Routes.post_notes now id user body w) in
  Note.authorId note = AuthUser._id user
  /\ Note.tenantId note = AuthUser.tenantId user
  /\ Note._id note = Some id
  /\ (AuthUser.tenantId reader = AuthUser.tenantId user ->
      fst (Routes.get_note reader id w') = res 200 (JsonNote note))
  /\ (AuthUser.tenantId reader <> AuthUser.tenantId user ->
      fst (Routes.get_note reader id w')
      = res 404 (Message "Note not found")).
Proof.
  destruct w as [st log]. run_route.
  destruct (insertNoteSchema_parse body) as [[title nbody]|e];
    [|discriminate].
  cbn [fst snd].
  assert (Hdone : forall log',
    let created :=
      MemStorage.createNote now id st
        (InsertNote.mk title nbody (AuthUser.tenantId user)
           (AuthUser._id user)) in
    res 201 (JsonNote (fst created)) = res 201 (JsonNote note) ->
    Note.authorId note = AuthUser._id user
    /\ Note.tenantId note = AuthUser.tenantId user
    /\ Note._id note = Some id
    /\ (AuthUser.tenantId reader = AuthUser.tenantId user ->
        fst (Routes.get_note reader id (mkWorld (snd created) log'))
        = res 200 (JsonNote note))
    /\ (AuthUser.tenantId reader <> AuthUser.tenantId user ->
        fst (Routes.get_note reader id (mkWorld (snd created) log'))
        = res 404 (Message "Note not found"))).
  { intros log' created [= <-]. subst created.
    split; [reflexivity|]. split; [reflexivity|]. split; [reflexivity|].
    split; intros Hreader; run_route; unfold MemStorage.getNote; simpl;
      rewrite JsMap_get_set_same; simpl.
    - rewrite Hreader, String.eqb_refl. reflexivity.
    - assert (E : String.eqb (AuthUser.tenantId user)
                    (AuthUser.tenantId reader) = false)
        by (apply String.eqb_neq; congruence).
      rewrite E. reflexivity. }
  destruct (Plan_eqb (TenantInfo.plan (AuthUser.tenant user)) free);
    cbv beta iota.
  - destruct (Nat.leb 3
                (MemStorage.countNotesByTenant st (AuthUser.tenantId user)));
      cbv beta iota; [discriminate|].
    apply Hdone.
  - apply Hdone.
Qed.

Lemma post_then_get_witness :
  exists note,
    fst (Routes.get_note Sample.acme_admin "n3"
           (snd (Routes.post_notes 7%Z "n3" Sample.acme_member
                   Sample.note_body (Sample.world Sample.two_notes))))
    = res 200 (JsonNote note)
    /\ fst (Routes.get_note Sample.globex_admin "n3"
              (snd (Routes.post_notes 7%Z "n3" Sample.acme_member
                      Sample.note_body (Sample.world Sample.two_notes))))
       = res 404 (Message "Note not found").
Proof.
  eexists.
  destruct (post_then_get 7%Z "n3" Sample.acme_member Sample.acme_admin
              Sample.note_body (Sample.world Sample.two_notes) _ eq_refl)
    as [_ [_ [_ [Hown _]]]].
  destruct (post_then_get 7%Z "n3" Sample.acme_member Sample.globex_admin
              Sample.note_body (Sample.world Sample.two_notes) _ eq_refl)
    as [_ [_ [_ [_ Hother]]]].
  split; [apply Hown; reflexivity | apply Hother; simpl; discriminate].
Defined.

(* ===================================================================== *)
(** * Further properties of the middleware                                *)
(* ===================================================================== *)

(** X15.  [authenticateToken] either answers 401 or calls [next()]; a
    thrown error of the token library or of the database is answered 401
    as well.  When it calls [next()], the header carried a token that
    [jwt.verify] accepted under the configured secret, and [req.user]
    holds the id, email, role and tenant id of the user stored for the
    token's subject and the tenant stored for that tenant id: the role
    and tenant claims of the token are not used. *)
Theorem authenticateToken_outcomes
  (jwt_verify : string -> string -> Outcome Decoded.t)
  (UserModel_findById : string -> Outcome (option UserDoc.t))
  (TenantModel_findById : string -> Outcome (option TenantInfo.t))
  (JWT_SECRET authorization : option string) :
  match authenticateToken jwt_verify UserModel_findById TenantModel_findById
          JWT_SECRET authorization with
  | Respond r => status r = 401
  | Next user =>
      exists token jwtSecret decoded doc,
        bearer_token authorization = Some token
        /\ truthy JWT_SECRET = Some jwtSecret
        /\ jwt_verify token jwtSecret = Value decoded
        /\ UserModel_findById (Decoded.sub decoded) = Value (Some doc)
        /\ TenantModel_findById (UserDoc.tenantId doc)
           = Value (Some (AuthUser.tenant user))
        /\ user = AuthUser.mk (UserDoc._id doc) (UserDoc.email doc)
                    (UserDoc.role doc) (UserDoc.tenantId doc)
                    (AuthUser.tenant user)
  end.
Proof.
  unfold authenticateToken, authenticateToken_try.
  destruct (bearer_token authorization) as [token|]; [|reflexivity].
  destruct (truthy JWT_SECRET) as [jwtSecret|]; [|reflexivity].
  destruct (jwt_verify token jwtSecret) as [decoded|e] eqn:Hv; [|reflexivity].
  destruct (UserModel_findById (Decoded.sub decoded)) as [[doc|]|e] eqn:Hu;
    try reflexivity.
  destruct (TenantModel_findById (UserDoc.tenantId doc)) as [[tenant|]|e]
    eqn:Ht; try reflexivity.
  exists token, jwtSecret, decoded, doc. simpl. auto 10.
Qed.

Lemma split_space_plain s : has_space s = false -> split_space s = [s].
Proof.
  unfold has_space. induction s as [|c s IH];
    cbn [existsb list_ascii_of_string split_space orb]; [reflexivity|].
  rewrite Ascii.eqb_sym.
  destruct (Ascii.eqb c " "%char); cbn [orb]; [discriminate|].
  intros H. now rewrite (IH H).
Qed.

Lemma split_space_scheme scheme rest :
  has_space scheme = false ->
  split_space (scheme ++ String " "%char rest) = scheme :: split_space rest.
Proof.
  unfold has_space. induction scheme as [|c s IH];
    cbn [existsb list_ascii_of_string split_space orb String.append].
  - intros _. now rewrite Ascii.eqb_refl.
  - rewrite Ascii.eqb_sym.
    destruct (Ascii.eqb c " "%char); cbn [orb]; [discriminate|].
    intros H. now rewrite (IH H).
Qed.

(** X16.  The header the client builds, ["Bearer " + token], gives the
    token back as long as the token is not empty and holds no space; the
    word before the space is not looked at, so any scheme does; and a
    header without a space carries no token. *)
Theorem bearer_token_roundtrip (scheme token : string) :
  token <> "" ->
  has_space token = false ->
  bearer_token (Some (bearer_header token)) = Some token
  /\ (has_space scheme = false ->
      bearer_token (Some (scheme ++ String " "%char token)) = Some token)
  /\ bearer_token (Some token) = None.
Proof.
  intros Hne Hsp.
  assert (Hscheme : forall sch, has_space sch = false ->
            bearer_token (Some (sch ++ String " "%char token)) = Some token).
  { intros sch Hsch. unfold bearer_token.
    assert (Hh : truthy (Some (sch ++ String " "%char token))
                 = Some (sch ++ String " "%char token)).
    { simpl. destruct sch; reflexivity. }
    rewrite Hh, (split_space_scheme sch token Hsch),
      (split_space_plain token Hsp). simpl.
    apply String.eqb_neq in Hne. now rewrite Hne. }
  split; [|split].
  - apply (Hscheme "Bearer"). reflexivity.
  - apply Hscheme.
  - unfold bearer_token. simpl.
    apply String.eqb_neq in Hne. rewrite Hne.
    now rewrite (split_space_plain token Hsp).
Qed.

Lemma bearer_token_roundtrip_witness :
  bearer_token (Some (bearer_header "abc.def.ghi")) = Some "abc.def.ghi"
  /\ bearer_token (Some "Basic abc.def.ghi") = Some "abc.def.ghi".
Proof.
  destruct (bearer_token_roundtrip "Basic" "abc.def.ghi")
    as [Hbearer [Hany _]]; [discriminate | reflexivity |].
  split; [exact Hbearer | apply Hany; reflexivity].
Defined.

(* ===================================================================== *)
(** * Further properties of backend selection                             *)
(* ===================================================================== *)

Lemma getStorage_no_uri MONGODB_URI reachable p :
  Storage.falsy MONGODB_URI = true ->
  Storage.mongoStorage p = None ->
  Storage.getStorage MONGODB_URI reachable p
  = (Storage.Fallback
       match Storage.memoryStorageFallback p with
       | Some m => m
       | None => MemStorage.new
       end,
     Storage.mk None
       (Some match Storage.memoryStorageFallback p with
             | Some m => m
             | None => MemStorage.new
             end),
     [Storage.CallConnectDB]).
Proof.
  intros Huri Hnone.
  unfold Storage.getStorage, Storage.initializeStorage, Storage.connectDB.
  rewrite Hnone.
  destruct MONGODB_URI as [mongoUri|]; [rewrite Huri|]; reflexivity.
Qed.

(** X17.  With [MONGODB_URI] unset or empty and no primary connected,
    every access of a run is answered with one and the same fallback
    object, the one already there or else a new empty store, and
    [mongoose.connect] is never called, whether or not the database
    could be reached. *)
Theorem no_uri_always_fallback
  (MONGODB_URI : option string) (world : list bool) (p : Storage.t) :
  Storage.falsy MONGODB_URI = true ->
  Storage.mongoStorage p = None ->
  let mem := match Storage.memoryStorageFallback p with
             | Some m => m
             | None => MemStorage.new
             end in
  fst (Storage.run MONGODB_URI world p)
  = map (fun _ => (Storage.Fallback mem, [Storage.CallConnectDB])) world.
Proof.
  intros Huri. revert p.
  induction world as [|reachable world IH]; intros p Hnone; simpl;
    [reflexivity|].
  rewrite (getStorage_no_uri MONGODB_URI reachable p Huri Hnone).
  specialize (IH (Storage.mk None
                    (Some match Storage.memoryStorageFallback p with
                          | Some m => m
                          | None => MemStorage.new
                          end)) eq_refl).
  simpl in IH.
  destruct (Storage.run MONGODB_URI world _) as [rest p''].
  simpl in *. now rewrite IH.
Qed.

Lemma no_uri_always_fallback_witness :
  fst (Storage.run None [true; false; true] Storage.initial)
  = [(Storage.Fallback MemStorage.new, [Storage.CallConnectDB]);
     (Storage.Fallback MemStorage.new, [Storage.CallConnectDB]);
     (Storage.Fallback MemStorage.new, [Storage.CallConnectDB])].
Proof.
  apply (no_uri_always_fallback None [true; false; true] Storage.initial);
    reflexivity.
Defined.

(* ===================================================================== *)
(** * Further properties: seeding, empty updates, the dashboard           *)
(* ===================================================================== *)

Lemma find_slug_In l t :
  In t l -> MemStorage.find_slug l (Tenant.slug t) <> None.
Proof.
  intros Hin Hnone. apply find_slug_None in Hnone.
  rewrite Forall_forall in Hnone. now apply (Hnone t Hin).
Qed.

Lemma seed_store_tenants env st :
  MemStorage.tenants (seed_store env st)
  = JsMap.set (SeedRoute.globex_id env) (seed_globex env)
      (JsMap.set (SeedRoute.acme_id env) (seed_acme env)
         (MemStorage.tenants st))
  /\ MemStorage.notes (seed_store env st) = MemStorage.notes st.
Proof. split; reflexivity. Qed.

Lemma seed_runs env st log :
  MemStorage.getTenantBySlug st "acme" = None ->
  fst (SeedRoute.seed env (mkWorld st log))
  = res 201 (Message "Seed data created successfully")
  /\ storage (snd (SeedRoute.seed env (mkWorld st log))) = seed_store env st.
Proof.
  intros Hnone. run_route. rewrite Hnone. split; reflexivity.
Qed.

(** X18.  [POST /api/auth/seed] creates nothing when a tenant with slug
    "acme" is stored and answers 200 "Seed data already exists".
    Otherwise it answers 201 and leaves the notes alone; and provided
    [nanoid()] gave the two tenants different ids, a tenant with slug
    "acme" and one with slug "globex" are then stored, so that a second
    seed creates nothing. *)
Theorem seed_idempotent (env env' : SeedRoute.SeedEnv) (w : World) :
  (MemStorage.getTenantBySlug (storage w) "acme" <> None ->
   fst (SeedRoute.seed env w) = res 200 (Message "Seed data already exists")
   /\ storage (snd (SeedRoute.seed env w)) = storage w)
  /\ (MemStorage.getTenantBySlug (storage w) "acme" = None ->
      let w1 := snd (SeedRoute.seed env w) in
      fst (SeedRoute.seed env w)
      = res 201 (Message "Seed data created successfully")
      /\ MemStorage.notes (storage w1) = MemStorage.notes (storage w)
      /\ (SeedRoute.acme_id env <> SeedRoute.globex_id env ->
          MemStorage.getTenantBySlug (storage w1) "acme" <> None
          /\ MemStorage.getTenantBySlug (storage w1) "globex" <> None
          /\ fst (SeedRoute.seed env' w1)
             = res 200 (Message "Seed data already exists")
          /\ storage (snd (SeedRoute.seed env' w1)) = storage w1)).
Proof.
  destruct w as [st log]. cbn [storage]. split.
  - intros Hsome. run_route.
    destruct (MemStorage.getTenantBySlug st "acme"); [|contradiction].
    split; reflexivity.
  - intros Hnone.
    destruct (seed_runs env st log Hnone) as [Hres Hst].
    split; [exact Hres|]. rewrite Hst.
    destruct (seed_store_tenants env st) as [Hten Hnotes].
    split; [exact Hnotes|].
    intros Hids.
    assert (Hacme : MemStorage.getTenantBySlug (seed_store env st) "acme"
                    <> None).
    { unfold MemStorage.getTenantBySlug. rewrite Hten.
      apply (find_slug_In _ (seed_acme env)).
      apply (JsMap_get_In _ (SeedRoute.acme_id env)).
      rewrite JsMap_get_set_other by assumption.
      apply JsMap_get_set_same. }
    assert (Hglobex : MemStorage.getTenantBySlug (seed_store env st) "globex"
                      <> None).
    { unfold MemStorage.getTenantBySlug. rewrite Hten.
      apply (find_slug_In _ (seed_globex env)).
      apply (JsMap_get_In _ (SeedRoute.globex_id env)).
      apply JsMap_get_set_same. }
    split; [exact Hacme|]. split; [exact Hglobex|].
    destruct (SeedRoute.seed env (mkWorld st log)) as [r [st1 log1]].
    cbn [snd storage] in Hst. subst st1. cbn [snd].
    run_route.
    destruct (MemStorage.getTenantBySlug (seed_store env st) "acme");
      [|contradiction].
    split; reflexivity.
Qed.

Lemma seed_idempotent_witness :
  fst (SeedRoute.seed
         (SeedRoute.mkSeedEnv 1%Z "t-a" 2%Z "t-g" "hash-of-password"
            (fun n => (3%Z, "u-" ++ string_of_list_ascii
                                      [ascii_of_nat (48 + n)])))
         (snd (SeedRoute.seed
                 (SeedRoute.mkSeedEnv 1%Z "t-a" 2%Z "t-g" "hash-of-password"
                    (fun n => (3%Z, "u-" ++ string_of_list_ascii
                                              [ascii_of_nat (48 + n)])))
                 (Sample.world MemStorage.new))))
  = res 200 (Message "Seed data already exists").
Proof.
  destruct (seed_idempotent
              (SeedRoute.mkSeedEnv 1%Z "t-a" 2%Z "t-g" "hash-of-password"
                 (fun n => (3%Z, "u-" ++ string_of_list_ascii
                                           [ascii_of_nat (48 + n)])))
              (SeedRoute.mkSeedEnv 1%Z "t-a" 2%Z "t-g" "hash-of-password"
                 (fun n => (3%Z, "u-" ++ string_of_list_ascii
                                           [ascii_of_nat (48 + n)])))
              (Sample.world MemStorage.new)) as [_ Hfresh].
  destruct (Hfresh eq_refl) as [_ [_ Hsecond]].
  destruct Hsecond as [_ [_ [Hres _]]]; [simpl; discriminate|].
  exact Hres.
Defined.

(** X19.  [PUT /api/notes/:id] on a note of the caller's tenant, with a
    body that passes the schema, answers 200 with a note that has the
    id, tenant, author and creation time of the stored one, whatever
    other keys the body holds; with a body that names neither title nor
    body, as the empty object, the note returned and stored is the old
    one with only [updatedAt] moved to the clock. *)
Theorem put_note_own
  (now : Date) (user : AuthUser.t) (id : string) (o : JsonObject)
  (updates : UpdateNote.t) (w : World) (note : Note.t) :
  MemStorage.getNote (storage w) id (AuthUser.tenantId user) = Some note ->
  updateNoteSchema_parse (Some o) = Value updates ->
  exists updated,
    fst (Routes.put_note now user id (Some o) w) = res 200 (JsonNote updated)
    /\ MemStorage.getNote (storage (snd (Routes.put_note now user id (Some o) w)))
         id (AuthUser.tenantId user) = Some updated
    /\ Note._id updated = Note._id note
    /\ Note.tenantId updated = Note.tenantId note
    /\ Note.authorId updated = Note.authorId note
    /\ Note.createdAt updated = Note.createdAt note
    /\ (field "title" o = None -> field "body" o = None ->
        updated
        = Note.mk (Note._id note) (Note.title note) (Note.body note)
            (Note.tenantId note) (Note.authorId note) (Note.createdAt note)
            (Some now)).
Proof.
  intros Hown Hparse. destruct w as [st log]. cbn [storage] in Hown.
  apply getNote_get in Hown as [Hget Hten].
  assert (E : String.eqb (Note.tenantId note) (AuthUser.tenantId user) = true)
    by now apply String.eqb_eq.
  run_route. rewrite Hparse. cbv beta iota.
  unfold MemStorage.updateNote. rewrite Hget, E. cbn [negb fst snd].
  eexists. split; [reflexivity|]. split.
  - unfold MemStorage.getNote. simpl. rewrite JsMap_get_set_same. simpl.
    now rewrite E.
  - simpl. repeat split.
    intros Htitle Hbody. unfold updateNoteSchema_parse in Hparse.
    rewrite Htitle, Hbody in Hparse. simpl in Hparse.
    injection Hparse as <-. reflexivity.
Qed.

Lemma put_note_own_witness :
  exists updated,
    fst (Routes.put_note 8%Z Sample.acme_member "n1" (Some [])
           (Sample.world Sample.two_notes))
    = res 200 (JsonNote updated)
    /\ updated
       = Note.mk (Some "n1") "title" "body" "t-acme" "u-1" (Some 0%Z)
           (Some 8%Z).
Proof.
  destruct (put_note_own 8%Z Sample.acme_member "n1" []
              (UpdateNote.mk None None) (Sample.world Sample.two_notes)
              (snd (Sample.note "n1" "t-acme")) eq_refl eq_refl)
    as [updated [Hres [_ [_ [_ [_ [_ Hsame]]]]]]].
  exists updated. split; [exact Hres|].
  apply Hsame; reflexivity.
Defined.



(* ===================================================================== *)
(** * Listing and looking up agree; deleting frees a place                *)
(* ===================================================================== *)

Lemma JsMap_get_unique {V} (m : JsMap.t V) k v :
  keys_unique m -> In (k, v) m -> JsMap.get k m = Some v.
Proof.
  unfold keys_unique. induction m as [|[k' v'] m IH]; simpl; [tauto|].
  intros Hm Hin. inversion Hm as [|x l Hnotin Hnodup]; subst.
  destruct Hin as [[= -> ->] | Hin].
  - now rewrite String.eqb_refl.
  - destruct (String.eqb k' k) eqn:E; [|auto].
    apply String.eqb_eq in E. subst k'. exfalso. apply Hnotin.
    apply (in_map fst) in Hin. exact Hin.
Qed.

(** X21.  In a well-formed store, so in every store the methods can
    reach, the list of a tenant and the lookup by id agree: a note is in
    the answer of [getNotesByTenant T] exactly when [getNote] returns it
    for its own [_id] and [T]. *)
Theorem list_and_lookup_agree (st : MemStorage.t) (T : string) (note : Note.t) :
  well_formed st ->
  In note (MemStorage.getNotesByTenant st T)
  <-> exists id, Note._id note = Some id
                 /\ MemStorage.getNote st id T = Some note.
Proof.
  intros [_ _ [Huniq Hfiled]]. rewrite getNotesByTenant_filter. split.
  - intros Hin. apply filter_In in Hin as [Hin Hten].
    apply String.eqb_eq in Hten.
    unfold JsMap.values in Hin. apply in_map_iff in Hin as [[k v] [Hv Hin]].
    simpl in Hv. subst v. exists k. split.
    + unfold filed_by_id in Hfiled. rewrite Forall_forall in Hfiled.
      exact (Hfiled _ Hin).
    + apply getNote_get. split; [|assumption].
      now apply JsMap_get_unique.
  - intros [id [_ Hget]]. apply getNote_get in Hget as [Hget Hten].
    apply filter_In. split.
    + now apply (JsMap_get_In _ id).
    + now apply String.eqb_eq.
Qed.

Lemma list_and_lookup_agree_witness :
  In (snd (Sample.note "n2" "t-acme"))
    (MemStorage.getNotesByTenant Sample.two_notes "t-acme").
Proof.
  apply (list_and_lookup_agree Sample.two_notes "t-acme"
           (snd (Sample.note "n2" "t-acme"))).
  - constructor; simpl; split;
      try (unfold keys_unique; simpl;
           repeat constructor; simpl; intuition discriminate);
      repeat constructor.
  - exists "n2". split; reflexivity.
Defined.

Lemma deleteNote_count st id T note :
  MemStorage.getNote st id T = Some note ->
  S (MemStorage.countNotesByTenant (snd (MemStorage.deleteNote st id T)) T)
  = MemStorage.countNotesByTenant st T.
Proof.
  intros Hown. apply getNote_get in Hown as [Hget Hten].
  assert (E : String.eqb (Note.tenantId note) T = true)
    by now apply String.eqb_eq.
  destruct (JsMap_delete_present (MemStorage.notes st) id note Hget)
    as [m1 [m2 [Hm [Hdel _]]]].
  unfold MemStorage.deleteNote. rewrite Hget, E, Hdel. simpl.
  rewrite !countNotesByTenant_filter. simpl.
  rewrite Hm, !values_app, !filter_app, !length_app. simpl.
  cbv [of_tenant]. rewrite E. simpl. lia.
Qed.

(** X22.  Deleting frees a place under the plan limit: when a caller on
    the free plan whose tenant holds at most three notes deletes one of
    them through [DELETE /api/notes/:id], the answer is 200 and the
    create request with a valid body that follows is answered 201. *)
Theorem delete_then_post
  (now : Date) (id id' : string) (user : AuthUser.t) (body : ReqBody)
  (title nbody : string) (w : World) (note : Note.t) :
  TenantInfo.plan (AuthUser.tenant user) = free ->
  MemStorage.getNote (storage w) id (AuthUser.tenantId user) = Some note ->
  MemStorage.countNotesByTenant (storage w) (AuthUser.tenantId user) <= 3 ->
  insertNoteSchema_parse body = Value (title, nbody) ->
  fst (Routes.delete_note user id w)
  = res 200 (Message "Note deleted successfully")
  /\ status (fst (Routes.post_notes now id' user body
                    (snd (Routes.delete_note user id w)))) = 201.
Proof.
  intros Hfree Hown Hle Hparse. destruct w as [st log].
  cbn [storage] in Hown, Hle.
  pose proof (deleteNote_count st id (AuthUser.tenantId user) note Hown)
    as Hcount.
  assert (Hdel : fst (MemStorage.deleteNote st id (AuthUser.tenantId user))
                 = true).
  { apply getNote_get in Hown as [Hget Hten].
    apply String.eqb_eq in Hten.
    destruct (JsMap_delete_present (MemStorage.notes st) id note Hget)
      as [m1 [m2 [_ [Hd _]]]].
    unfold MemStorage.deleteNote. rewrite Hget, Hten, Hd. reflexivity. }
  destruct (MemStorage.deleteNote st id (AuthUser.tenantId user))
    as [deleted st'] eqn:Hrun.
  cbn [fst snd] in Hdel, Hcount. subst deleted.
  split.
  - run_route. rewrite Hrun. reflexivity.
  - run_route. rewrite Hrun. cbn [fst snd negb]. cbv beta iota.
    rewrite Hparse, Hfree. cbn [Plan_eqb]. cbv beta iota.
    assert (Hlim : Nat.leb 3
                     (MemStorage.countNotesByTenant st'
                        (AuthUser.tenantId user)) = false)
      by (apply Nat.leb_gt; lia).
    rewrite Hlim. reflexivity.
Qed.

Lemma delete_then_post_witness :
  status (fst (Routes.post_notes 7%Z "n4" Sample.acme_member Sample.note_body
                 (snd (Routes.delete_note Sample.acme_member "n1"
                         (Sample.world Sample.three_notes))))) = 201.
Proof.
  apply (delete_then_post 7%Z "n1" "n4" Sample.acme_member Sample.note_body
           "Minutes" "Agenda" (Sample.world Sample.three_notes)
           (snd (Sample.note "n1" "t-acme")));
    [reflexivity | reflexivity | vm_compute; lia | reflexivity].
Defined.
